(** * voice_stream.audio.audio_webm: the WEBM buffer splitter

    A shallow embedding of [src/voice_stream/audio/audio_webm.py]:
    [read_ebml_size], [find_last_webm_simple_block] and
    [split_webm_buffer], with the PyAV demux/mux calls taken as the
    parameters of a section.

    Python integers are unbounded, so they are [Z]; a [bytes] object is a
    list of [byte]; [None] is [option]; an exception is an [outcome]. *)

From Stdlib Require Import ZArith List Lia Bool.
From Stdlib.Strings Require Import Byte.
Import ListNotations.
Open Scope Z_scope.

(** ** Python values and exceptions *)

Definition bytes := list byte.

Definition byte_val (b : byte) : Z := Z.of_N (Byte.to_N b).

Definition len (data : bytes) : Z := Z.of_nat (length data).

(** The exceptions the module can raise.  [TypeError], [IndexError],
    [ValueError] and [AssertionError] are those of the module's own lines
    (unpacking and subtracting, line 62, line 39, line 74);
    [OverflowError] is what assigning to a packet's [dts] or [pts] raises
    when the integer does not fit the field; [AvError] stands for anything
    raised inside a call of the PyAV library, whatever its Python class. *)
Inductive exn : Type :=
| TypeError
| ValueError
| IndexError
| AssertionError
| OverflowError
| AvError.

(** What running a piece of the code gives: a value, an exception, or
    [NoFuel] when the [while True] loop was cut off by the model's fuel. *)
Inductive outcome (A : Type) : Type :=
| Ret (a : A)
| Raise (e : exn)
| NoFuel.

Arguments Ret {A} a.
Arguments Raise {A} e.
Arguments NoFuel {A}.

Definition bind {A B : Type} (m : outcome A) (k : A -> outcome B) : outcome B :=
  match m with
  | Ret a => k a
  | Raise e => Raise e
  | NoFuel => NoFuel
  end.

Notation "x <- m ;; k" := (bind m (fun x => k))
  (at level 61, m at next level, right associativity).
Notation "' pat <- m ;; k" := (bind m (fun x => match x with pat => k end))
  (at level 61, pat pattern, m at next level, right associativity).

(** ** Indexing, slicing and [bytes.rfind] *)

(** [data[i]]: a negative index counts from the end; out of range raises. *)
Definition getitem {A : Type} (data : list A) (i : Z) : outcome A :=
  let n := Z.of_nat (length data) in
  let j := if i <? 0 then i + n else i in
  if (0 <=? j) && (j <? n) then
    match nth_error data (Z.to_nat j) with
    | Some b => Ret b
    | None => Raise IndexError
    end
  else Raise IndexError.

(** How a slice bound is read against a sequence of length [n]. *)
Definition slice_index (n i : Z) : Z :=
  if i <? 0 then Z.max 0 (i + n) else Z.min i n.

(** [data[lo:hi]] *)
Definition slice {A : Type} (data : list A) (lo hi : Z) : list A :=
  let n := Z.of_nat (length data) in
  let a := slice_index n lo in
  let b := slice_index n hi in
  firstn (Z.to_nat (b - a)) (skipn (Z.to_nat a) data).

(** [data[:hi]] and [data[lo:]] *)
Definition slice_to {A : Type} (data : list A) (hi : Z) : list A :=
  slice data 0 hi.

Definition slice_from {A : Type} (data : list A) (lo : Z) : list A :=
  slice data lo (Z.of_nat (length data)).

(** The highest index below [n] that holds [sub], or -1. *)
Fixpoint rfind_below (data : bytes) (sub : byte) (n : nat) : Z :=
  match n with
  | O => -1
  | S k =>
      match nth_error data k with
      | Some x => if Byte.eqb x sub then Z.of_nat k else rfind_below data sub k
      | None => rfind_below data sub k
      end
  end.

(** [data.rfind(sub, start, end)] for a one-byte [sub]: the bounds are read
    as in slice notation. *)
Definition rfind (data : bytes) (sub : byte) (start end_ : Z) : Z :=
  let a := slice_index (len data) start in
  let b := slice_index (len data) end_ in
  let r := rfind_below data sub (Z.to_nat b) in
  if a <=? r then r else -1.

(** ** read_ebml_size *)

(** The [for bit in range(7, -1, -1)] loop: [num_bytes] grows by one for
    each leading zero bit and the loop breaks at the first set bit. *)
Fixpoint count_marker (first_byte : Z) (bits : list Z) (num_bytes : Z) : Z :=
  match bits with
  | [] => num_bytes
  | bit :: rest =>
      if negb (Z.land (Z.shiftr first_byte bit) 1 =? 0) then num_bytes
      else count_marker first_byte rest (num_bytes + 1)
  end.

(** The [for i, byte in enumerate(size_bytes)] loop. *)
Fixpoint assemble (size_bytes : bytes) (i : Z) (num_bytes size_value : Z) : Z :=
  match size_bytes with
  | [] => size_value
  | b :: rest =>
      let size_value :=
        if i =? 0 then Z.land (byte_val b) (Z.shiftr 255 (num_bytes + 1))
        else Z.lor (Z.shiftl size_value 8) (byte_val b) in
      assemble rest (i + 1) num_bytes size_value
  end.

(** Returns the pair [(value or None, num_bytes)]. *)
Definition read_ebml_size (data : bytes) (position : Z) (max_bytes : Z)
  : outcome (option Z * Z) :=
  b <- getitem data position ;;
  let first_byte := byte_val b in
  let num_bytes := count_marker first_byte [7; 6; 5; 4; 3; 2; 1; 0] 1 in
  if num_bytes >? max_bytes then Ret (None, num_bytes)
  else if num_bytes =? 1 then Ret (Some (Z.land first_byte 127), 1)
  else if len data <? position + num_bytes then Ret (None, num_bytes)
  else
    let size_bytes := slice data position (position + num_bytes) in
    Ret (Some (assemble size_bytes 0 num_bytes 0), num_bytes).

(** ** find_last_webm_simple_block *)

(** The function returns the bare integer -1 at line 101 and a 2-tuple at
    line 112. *)
Inductive py_value : Type :=
| PyInt (n : Z)
| PyTuple2 (pos size : Z).

(** The marker byte of a SimpleBlock element. *)
Definition marker : byte := xa3.

(** Lines 103-112, the checks made on the candidate at [pos]: [Some] of the
    returned tuple when they all pass, [None] when control falls through to
    line 115. *)
Definition check_candidate (data : bytes) (l pos : Z)
  : outcome (option py_value) :=
  if pos + 5 <? l then
    '(size, size_bytes) <- read_ebml_size data (pos + 1) 2 ;;
    match size with
    | Some size =>
        '(track, track_bytes) <- read_ebml_size data (pos + 1 + size_bytes) 2 ;;
        match track with
        | Some track =>
            if track <? 5 then
              let flag_pos := pos + 1 + size_bytes + track_bytes + 2 in
              if flag_pos <? l then
                b <- getitem data (pos + 1 + size_bytes + track_bytes + 2) ;;
                let flag := byte_val b in
                if (flag =? 128) || (flag =? 0) then
                  Ret (Some (PyTuple2 pos (size + 1 + size_bytes)))
                else Ret None
              else Ret None
            else Ret None
        | None => Ret None
        end
    | None => Ret None
    end
  else Ret None.

(** One turn of the [while True] loop, from the value of [pos] at its top:
    either the function returns, or the loop goes round with a new [pos]. *)
Inductive loop_ctl : Type :=
| Return (v : py_value)
| Continue (pos : Z).

Definition loop_body (data : bytes) (l pos : Z) : outcome loop_ctl :=
  let pos := rfind data marker 0 pos in
  if pos =? -1 then Ret (Return (PyInt (-1)))
  else
    r <- check_candidate data l pos ;;
    match r with
    | Some v => Ret (Return v)
    | None => Ret (Continue (pos - 1))
    end.

Fixpoint loop (fuel : nat) (data : bytes) (l pos : Z) : outcome py_value :=
  match fuel with
  | O => NoFuel
  | S fuel' =>
      c <- loop_body data l pos ;;
      match c with
      | Return v => Ret v
      | Continue pos' => loop fuel' data l pos'
      end
  end.

(** [end or len(data)]: [None] and [0] are both falsy. *)
Definition end_or_len (data : bytes) (end_ : option Z) : Z :=
  match end_ with
  | None => len data
  | Some e => if e =? 0 then len data else e
  end.

Definition find_last_webm_simple_block (fuel : nat) (data : bytes)
  (end_ : option Z) : outcome py_value :=
  let l := end_or_len data end_ in
  loop fuel data l l.

(** ** split_webm_buffer *)

(** A PyAV packet, as far as the function reads and writes it.  [size] is
    the length in bytes of the packet's data; [dts] and [pts] may be
    [None]. *)
Record Packet : Type := mkPacket {
  size : N;
  is_keyframe : bool;
  dts : option Z;
  pts : option Z
}.

(** [a, b = v] *)
Definition unpack2 (v : py_value) : outcome (Z * Z) :=
  match v with
  | PyTuple2 a b => Ret (a, b)
  | PyInt _ => Raise TypeError
  end.

(** [x - y] on timestamps that may be [None]. *)
Definition py_sub (x y : option Z) : outcome Z :=
  match x, y with
  | Some a, Some b => Ret (a - b)
  | _, _ => Raise TypeError
  end.

(** Lines 42-50: the state of the demux loop is the accumulator, the byte
    pointer and the start of the last keyframe. *)
Fixpoint scan_packets (packets : list Packet) (split_before : Z)
  (packets_since_last_keyframe : list Packet) (byte_ptr key_frame_start : Z)
  : list Packet * Z * Z :=
  match packets with
  | [] => (packets_since_last_keyframe, byte_ptr, key_frame_start)
  | packet :: rest =>
      let reset := is_keyframe packet && (byte_ptr <? split_before) in
      let acc := if reset then [] else packets_since_last_keyframe in
      let start := if reset then byte_ptr else key_frame_start in
      scan_packets rest split_before (acc ++ [packet])
        (byte_ptr + Z.of_N (size packet)) start
  end.

Definition select_packets (packets : list Packet) (split_before : Z)
  : list Packet * Z * Z :=
  scan_packets packets split_before [] 0 (-1).

(** [x is not None] *)
Definition is_some {A : Type} (x : option A) : bool :=
  match x with
  | Some _ => true
  | None => false
  end.

(** The bounds of the C [int64_t] in which [av.Packet] keeps [dts] and
    [pts]. *)
Definition int64_min : Z := - 2 ^ 63.

Definition int64_max : Z := 2 ^ 63 - 1.

(** [packet.dts = v] and [packet.pts = v] for an integer [v], as the
    attribute reads afterwards: the assignment raises OverflowError when
    [v] does not fit an [int64_t], and the least [int64_t] is
    AV_NOPTS_VALUE, which the attribute reads back as [None]. *)
Definition set_timestamp (v : Z) : outcome (option Z) :=
  if (v <? int64_min) || (int64_max <? v) then Raise OverflowError
  else if v =? int64_min then Ret None
  else Ret (Some v).

(** Lines 65-67, on one packet: line 66 subtracts and assigns [dts], then
    line 67 subtracts and assigns [pts]. *)
Definition adjust_packet (adjust_timestamps : bool)
  (dts_start pts_start : option Z) (packet : Packet) : outcome Packet :=
  if adjust_timestamps && is_some (dts packet) then
    d <- py_sub (dts packet) dts_start ;;
    new_dts <- set_timestamp d ;;
    p <- py_sub (pts packet) pts_start ;;
    new_pts <- set_timestamp p ;;
    Ret (mkPacket (size packet) (is_keyframe packet) new_dts new_pts)
  else Ret packet.

(** Lines 64-67 alone: the packets as they are handed to [mux], one after
    the other, when no call of [mux] raises. *)
Fixpoint adjust_all (adjust_timestamps : bool) (dts_start pts_start : option Z)
  (packets : list Packet) : outcome (list Packet) :=
  match packets with
  | [] => Ret []
  | packet :: rest =>
      p <- adjust_packet adjust_timestamps dts_start pts_start packet ;;
      ps <- adjust_all adjust_timestamps dts_start pts_start rest ;;
      Ret (p :: ps)
  end.

(** Lines 62-67, the calls of [mux] left out. *)
Definition write_packets (adjust_timestamps : bool)
  (packets_since_last_keyframe : list Packet) : outcome (list Packet) :=
  first <- getitem packets_since_last_keyframe 0 ;;
  let dts_start := dts first in
  let pts_start := pts first in
  adjust_all adjust_timestamps dts_start pts_start packets_since_last_keyframe.

(** What opening a buffer with PyAV and looking for its audio stream
    gives. *)
Inductive demuxed (Stream : Type) : Type :=
| OpenFailed
| NoAudioStream
| AudioStream (s : Stream) (packets : list Packet).

Arguments OpenFailed {Stream}.
Arguments NoAudioStream {Stream}.
Arguments AudioStream {Stream} s packets.

Section Split.

(** The PyAV library, each function giving [None] when the library raises.
    [av_demux] is [av.open] on a buffer, the search for the audio stream
    and [demux] (lines 34-45).  The output container is a state of type
    [Output]: [av_open_output] is [av.open(..., mode="w", format="webm")]
    with [add_stream(template=...)] (lines 57-59), [av_mux] is one call of
    [mux] (line 68), and [av_close] is [close()] with [getvalue()] (lines
    70-72). *)
Variable Stream : Type.
Variable Output : Type.
Variable av_demux : bytes -> demuxed Stream.
Variable av_open_output : Stream -> option Output.
Variable av_mux : Output -> Packet -> option Output.
Variable av_close : Output -> option bytes.

(** Lines 72-78. *)
Definition strip_and_stitch (fuel : nat) (raw extra_bytes : bytes)
  : outcome bytes :=
  v <- find_last_webm_simple_block fuel raw None ;;
  '(pos, size) <- unpack2 v ;;
  if len raw >=? pos + size then
    Ret (slice_to raw (pos + size) ++ extra_bytes)
  else Raise AssertionError.

(** Lines 64-68: each packet is adjusted and then muxed before the next
    one is looked at. *)
Fixpoint write_loop (adjust_timestamps : bool) (dts_start pts_start : option Z)
  (packets : list Packet) (out : Output) : outcome Output :=
  match packets with
  | [] => Ret out
  | packet :: rest =>
      p <- adjust_packet adjust_timestamps dts_start pts_start packet ;;
      match av_mux out p with
      | None => Raise AvError
      | Some out' =>
          write_loop adjust_timestamps dts_start pts_start rest out'
      end
  end.

(** Lines 62-68, the output container being open. *)
Definition write_and_mux (adjust_timestamps : bool)
  (packets_since_last_keyframe : list Packet) (out : Output)
  : outcome Output :=
  first <- getitem packets_since_last_keyframe 0 ;;
  let dts_start := dts first in
  let pts_start := pts first in
  write_loop adjust_timestamps dts_start pts_start
    packets_since_last_keyframe out.

(** Lines 56-78, from the selected packets on. *)
Definition remux (fuel : nat) (audio_stream : Stream)
  (packets_since_last_keyframe : list Packet) (adjust_timestamps : bool)
  (extra_bytes : bytes) : outcome bytes :=
  match av_open_output audio_stream with
  | None => Raise AvError
  | Some out =>
      out' <- write_and_mux adjust_timestamps packets_since_last_keyframe out ;;
      match av_close out' with
      | None => Raise AvError
      | Some raw => strip_and_stitch fuel raw extra_bytes
      end
  end.

Definition split_webm_buffer (fuel : nat) (audio : bytes) (split_before : Z)
  (adjust_timestamps : bool) : outcome bytes :=
  v <- find_last_webm_simple_block fuel audio None ;;
  '(last_start, size) <- unpack2 v ;;
  let last_start :=
    if len audio =? last_start + size then last_start + size
    else last_start in
  let usable_audio := slice_to audio last_start in
  let extra_bytes := slice_from audio last_start in
  match av_demux usable_audio with
  | OpenFailed => Raise AvError
  | NoAudioStream => Raise ValueError
  | AudioStream audio_stream packets =>
      let '(packets_since_last_keyframe, _, _) :=
        select_packets packets split_before in
      remux fuel audio_stream packets_since_last_keyframe
        adjust_timestamps extra_bytes
  end.

(** The muxed bytes when nothing goes wrong on the output side: the calls
    of [mux] on the written packets, one after the other, and the whole of
    lines 57-72 for a list of written packets. *)
Fixpoint mux_each (out : Output) (written : list Packet) : option Output :=
  match written with
  | [] => Some out
  | p :: rest =>
      match av_mux out p with
      | None => None
      | Some out' => mux_each out' rest
      end
  end.

Definition muxed (audio_stream : Stream) (written : list Packet)
  : option bytes :=
  match av_open_output audio_stream with
  | None => None
  | Some out =>
      match mux_each out written with
      | None => None
      | Some out' => av_close out'
      end
  end.

End Split.

Arguments write_loop {Output} av_mux adjust_timestamps dts_start pts_start packets out.
Arguments write_and_mux {Output} av_mux adjust_timestamps packets_since_last_keyframe out.
Arguments remux {Stream Output} av_open_output av_mux av_close fuel audio_stream packets_since_last_keyframe adjust_timestamps extra_bytes.
Arguments split_webm_buffer {Stream Output} av_demux av_open_output av_mux av_close fuel audio split_before adjust_timestamps.
Arguments mux_each {Output} av_mux out written.
Arguments muxed {Stream Output} av_open_output av_mux av_close audio_stream written.

(** ** Predicates of the statements *)

(** What a candidate at [pos] went through when lines 103-112 accept it:
    the two fields decoded, the track below 5, and the byte two positions
    after the track field equal to 0x80 or 0x00. *)
Inductive accepted (data : bytes) (l pos : Z) : py_value -> Prop :=
| Accepted (size size_bytes track track_bytes : Z) (flag : byte) :
    pos + 5 < l ->
    read_ebml_size data (pos + 1) 2 = Ret (Some size, size_bytes) ->
    read_ebml_size data (pos + 1 + size_bytes) 2 = Ret (Some track, track_bytes) ->
    track < 5 ->
    pos + 1 + size_bytes + track_bytes + 2 < l ->
    getitem data (pos + 1 + size_bytes + track_bytes + 2) = Ret flag ->
    byte_val flag = 128 \/ byte_val flag = 0 ->
    accepted data l pos (PyTuple2 pos (size + 1 + size_bytes)).

(** The byte offsets at which the demuxed packets that are keyframes start,
    [byte_ptr] being the offset of the first packet. *)
Fixpoint keyframe_offsets (packets : list Packet) (byte_ptr : Z) : list Z :=
  match packets with
  | [] => []
  | packet :: rest =>
      (if is_keyframe packet then [byte_ptr] else [])
      ++ keyframe_offsets rest (byte_ptr + Z.of_N (size packet))
  end.

(** The rebasing as the specification words it, to compare with
    [write_packets]: each of [dts] and [pts] has the first packet's value
    subtracted when the field is present and is left alone when absent. *)
Definition rebase_field (x start : option Z) : option Z :=
  match x, start with
  | Some a, Some b => Some (a - b)
  | _, _ => x
  end.

Definition rebase_as_specified (adjust_timestamps : bool)
  (packets : list Packet) : list Packet :=
  match packets with
  | first :: _ =>
      if adjust_timestamps then
        map (fun p => mkPacket (size p) (is_keyframe p)
                        (rebase_field (dts p) (dts first))
                        (rebase_field (pts p) (pts first))) packets
      else packets
  | [] => []
  end.

(** How a packet and the packet written for it are related when the guard
    of line 65 is on: with a [dts], both fields have the start values
    subtracted; without one, the packet is written as it is. *)
Definition rebased (d0 p0 : Z) (p q : Packet) : Prop :=
  size q = size p /\ is_keyframe q = is_keyframe p /\
  match dts p with
  | Some d =>
      dts q = Some (d - d0) /\
      exists t, pts p = Some t /\ pts q = Some (t - p0)
  | None => q = p
  end.

(** The number of bytes the scanner walks over: the sum of the packet
    sizes. *)
Fixpoint total_size (packets : list Packet) : Z :=
  match packets with
  | [] => 0
  | packet :: rest => Z.of_N (size packet) + total_size rest
  end.

(** Lines 27-29: where the buffer is cut, given what the locator returned
    for it. *)
Definition cut_point (audio : bytes) (last_start size : Z) : Z :=
  if len audio =? last_start + size then last_start + size else last_start.

(** A packet on which lines 66-67 subtract from or by [None], the start
    values being those of [first]. *)
Definition unrebasable (first p : Packet) : Prop :=
  dts p <> None /\ (dts first = None \/ pts first = None \/ pts p = None).

(** An integer that a timestamp field takes and shows again. *)
Definition fits_timestamp (v : Z) : Prop := int64_min < v <= int64_max.

(** A packet on which line 66 or line 67 assigns an integer outside the
    [int64_t], the start values being those of [first]. *)
Definition overflowing (first p : Packet) : Prop :=
  (exists d d0, dts p = Some d /\ dts first = Some d0 /\
                (d - d0 < int64_min \/ int64_max < d - d0)) \/
  (dts p <> None /\
   exists t t0, pts p = Some t /\ pts first = Some t0 /\
                (t - t0 < int64_min \/ int64_max < t - t0)).

(** ** Stand-ins for PyAV in the examples *)

(** A demuxer that yields the given packets, and an output container that
    opens, takes every packet and gives the given bytes when closed. *)
Definition fixed_demux (packets : list Packet) : bytes -> demuxed unit :=
  fun _ => AudioStream tt packets.

Definition fixed_open : unit -> option unit := fun _ => Some tt.

Definition fixed_mux : unit -> Packet -> option unit := fun _ _ => Some tt.

Definition fixed_close (raw : bytes) : unit -> option bytes :=
  fun _ => Some raw.

(** * Properties *)

(** ** Test vectors of the decoder *)

Example read_0x82 : read_ebml_size [x82] 0 1 = Ret (Some 2, 1).
Proof. reflexivity. Qed.

Example read_too_wide : read_ebml_size [x40; x00] 0 1 = Ret (None, 2).
Proof. reflexivity. Qed.

(** ** Indexing and searching *)

Lemma byte_val_range (b : byte) : 0 <= byte_val b < 256.
Proof.
  unfold byte_val. pose proof (Byte.to_N_bounded b) as H.
  lia.
Qed.

Lemma getitem_inv {A : Type} (data : list A) (i : Z) (x : A) :
  0 <= i -> getitem data i = Ret x ->
  i < Z.of_nat (length data) /\ nth_error data (Z.to_nat i) = Some x.
Proof.
  intros Hi. unfold getitem.
  destruct (i <? 0) eqn:Hneg; [apply Z.ltb_lt in Hneg; lia|].
  destruct ((0 <=? i) && (i <? Z.of_nat (length data))) eqn:Hin; [|discriminate].
  apply andb_true_iff in Hin. destruct Hin as [_ Hlt]. apply Z.ltb_lt in Hlt.
  destruct (nth_error data (Z.to_nat i)) eqn:Hn; [|discriminate].
  intros [= ->]. split; [exact Hlt | reflexivity].
Qed.

Lemma getitem_nth {A : Type} (data : list A) (i : Z) (x : A) :
  0 <= i -> nth_error data (Z.to_nat i) = Some x -> getitem data i = Ret x.
Proof.
  intros Hi Hn. unfold getitem.
  assert (Hlt : (Z.to_nat i < length data)%nat)
    by (apply nth_error_Some; rewrite Hn; discriminate).
  destruct (i <? 0) eqn:Hneg; [apply Z.ltb_lt in Hneg; lia|].
  replace ((0 <=? i) && (i <? Z.of_nat (length data))) with true.
  - rewrite Hn. reflexivity.
  - symmetry. apply andb_true_iff. split; [apply Z.leb_le | apply Z.ltb_lt]; lia.
Qed.

Lemma slice_index_range (n i : Z) : 0 <= n -> 0 <= slice_index n i <= n.
Proof.
  intros Hn. unfold slice_index. destruct (i <? 0) eqn:H.
  - apply Z.ltb_lt in H. lia.
  - apply Z.ltb_ge in H. lia.
Qed.

Lemma slice_index_id (n i : Z) : 0 <= i <= n -> slice_index n i = i.
Proof.
  intros H. unfold slice_index.
  destruct (i <? 0) eqn:E; [apply Z.ltb_lt in E; lia | lia].
Qed.

(** What [rfind_below] finds is a position of [sub] below the bound. *)
Lemma rfind_below_spec (data : bytes) (sub : byte) (n : nat) :
  rfind_below data sub n = -1 \/
  (0 <= rfind_below data sub n < Z.of_nat n /\
   nth_error data (Z.to_nat (rfind_below data sub n)) = Some sub).
Proof.
  induction n as [|k IH]; [left; reflexivity|].
  cbn [rfind_below].
  destruct (nth_error data k) as [x|] eqn:Hk.
  - destruct (Byte.eqb x sub) eqn:Hx.
    + right. apply Byte.byte_dec_bl in Hx. subst x.
      rewrite Nat2Z.id. split; [lia | exact Hk].
    + destruct IH as [IH | [IH1 IH2]]; [left; exact IH | right; split; [lia | exact IH2]].
  - destruct IH as [IH | [IH1 IH2]]; [left; exact IH | right; split; [lia | exact IH2]].
Qed.

(** [rfind] from [start = 0]: -1, or a position of [sub] below the bound as
    the slice notation reads it. *)
Lemma rfind_spec (data : bytes) (sub : byte) (end_ : Z) :
  rfind data sub 0 end_ = -1 \/
  (0 <= rfind data sub 0 end_ < slice_index (len data) end_ /\
   nth_error data (Z.to_nat (rfind data sub 0 end_)) = Some sub).
Proof.
  unfold rfind.
  pose proof (slice_index_range (len data) end_ ltac:(unfold len; lia)) as Hb.
  destruct (rfind_below_spec data sub (Z.to_nat (slice_index (len data) end_)))
    as [H | [H1 H2]].
  - rewrite H. left. destruct (slice_index (len data) 0 <=? -1); reflexivity.
  - destruct (slice_index (len data) 0 <=? _) eqn:E; [|left; reflexivity].
    right. split; [lia | exact H2].
Qed.

(** ** The decoder *)

Lemma count_marker_range (first_byte : Z) (bits : list Z) (num_bytes : Z) :
  num_bytes <= count_marker first_byte bits num_bytes
            <= num_bytes + Z.of_nat (length bits).
Proof.
  revert num_bytes. induction bits as [|bit rest IH]; intros num_bytes.
  - cbn. lia.
  - cbn [count_marker length].
    destruct (negb (Z.land (Z.shiftr first_byte bit) 1 =? 0)).
    + lia.
    + specialize (IH (num_bytes + 1)). lia.
Qed.

Lemma assemble_nonneg (size_bytes : bytes) (i num_bytes size_value : Z) :
  0 <= size_value -> 0 <= assemble size_bytes i num_bytes size_value.
Proof.
  revert i size_value.
  induction size_bytes as [|b rest IH]; intros i size_value Hv; [exact Hv|].
  cbn [assemble]. apply IH.
  pose proof (byte_val_range b) as Hb.
  destruct (i =? 0).
  - apply Z.land_nonneg. left. lia.
  - apply Z.lor_nonneg. split; [apply Z.shiftl_nonneg; exact Hv | lia].
Qed.

(** A field that [read_ebml_size] decodes under [max_bytes = 2] is one or
    two bytes wide and its value is not negative. *)
Lemma read_ebml_size_some (data : bytes) (position value num_bytes : Z) :
  read_ebml_size data position 2 = Ret (Some value, num_bytes) ->
  1 <= num_bytes <= 2 /\ 0 <= value.
Proof.
  unfold read_ebml_size.
  destruct (getitem data position) as [b| |]; cbn [bind]; try discriminate.
  pose proof (count_marker_range (byte_val b) [7; 6; 5; 4; 3; 2; 1; 0] 1) as Hc.
  set (n := count_marker (byte_val b) [7; 6; 5; 4; 3; 2; 1; 0] 1) in *.
  destruct (n >? 2) eqn:Hmax; [discriminate|].
  assert (n <= 2) by (rewrite Z.gtb_ltb in Hmax; apply Z.ltb_ge in Hmax; exact Hmax).
  destruct (n =? 1) eqn:H1.
  - intros [= <- <-]. split; [lia|].
    apply Z.land_nonneg. right. lia.
  - destruct (len data <? position + n); [discriminate|].
    intros [= <- <-]. split; [lia|].
    apply assemble_nonneg. lia.
Qed.

(** ** The locator *)

Lemma check_candidate_accepts (data : bytes) (l pos : Z) (v : py_value) :
  check_candidate data l pos = Ret (Some v) -> accepted data l pos v.
Proof.
  unfold check_candidate.
  destruct (pos + 5 <? l) eqn:Hroom; [|discriminate].
  apply Z.ltb_lt in Hroom.
  destruct (read_ebml_size data (pos + 1) 2) as [[[sz|] sb]| |] eqn:Hs;
    cbn [bind]; try discriminate.
  destruct (read_ebml_size data (pos + 1 + sb) 2) as [[[tr|] tb]| |] eqn:Ht;
    cbn [bind]; try discriminate.
  destruct (tr <? 5) eqn:Htr; [|discriminate].
  apply Z.ltb_lt in Htr.
  destruct (pos + 1 + sb + tb + 2 <? l) eqn:Hfl; [|discriminate].
  apply Z.ltb_lt in Hfl.
  destruct (getitem data (pos + 1 + sb + tb + 2)) as [b| |] eqn:Hb;
    cbn [bind]; try discriminate.
  destruct ((byte_val b =? 128) || (byte_val b =? 0)) eqn:Hflag; [|discriminate].
  intros [= <-].
  apply orb_true_iff in Hflag.
  apply (Accepted data l pos sz sb tr tb b); try assumption.
  destruct Hflag as [E | E]; apply Z.eqb_eq in E; [left | right]; exact E.
Qed.

(** One turn of the loop either returns -1, or returns the tuple of an
    accepted candidate that sits on a marker byte, or goes on from the
    position before a marker. *)
Lemma loop_body_inv (data : bytes) (l pos : Z) (c : loop_ctl) (found : Z) :
  found = rfind data marker 0 pos ->
  loop_body data l pos = Ret c ->
  match c with
  | Return v =>
      (found = -1 /\ v = PyInt (-1)) \/
      (0 <= found /\ nth_error data (Z.to_nat found) = Some marker /\
       accepted data l found v)
  | Continue pos' =>
      0 <= found < slice_index (len data) pos /\ pos' = found - 1 /\
      nth_error data (Z.to_nat found) = Some marker
  end.
Proof.
  intros Hfound. unfold loop_body. rewrite <- Hfound.
  destruct (rfind_spec data marker pos) as [E | [Hr Hn]];
    rewrite <- Hfound in *.
  - rewrite E. cbn. intros [= <-]. left. split; reflexivity.
  - destruct (found =? -1) eqn:E; [apply Z.eqb_eq in E; lia|].
    destruct (check_candidate data l found) as [[v|]| |] eqn:Hc;
      cbn [bind]; try discriminate; intros [= <-].
    + right. split; [lia|]. split; [exact Hn|].
      apply check_candidate_accepts. exact Hc.
    + split; [exact Hr|]. split; [reflexivity | exact Hn].
Qed.

(** Every value the locator returns is -1 or the tuple of an accepted
    candidate on a marker byte. *)
Lemma loop_inv (fuel : nat) (data : bytes) (l pos : Z) (v : py_value) :
  loop fuel data l pos = Ret v ->
  v = PyInt (-1) \/
  exists p, 0 <= p /\ nth_error data (Z.to_nat p) = Some marker /\
            accepted data l p v.
Proof.
  revert pos. induction fuel as [|fuel IH]; intros pos; [discriminate|].
  cbn [loop].
  destruct (loop_body data l pos) as [c| |] eqn:Hb; cbn [bind]; try discriminate.
  apply (loop_body_inv _ _ _ _ _ eq_refl) in Hb.
  destruct c as [w | pos'].
  - intros [= <-]. destruct Hb as [[_ ->] | (H0 & Hn & Ha)].
    + left. reflexivity.
    + right. exists (rfind data marker 0 pos). auto.
  - apply IH.
Qed.

Lemma find_last_inv (fuel : nat) (data : bytes) (end_ : option Z) (pos total : Z) :
  find_last_webm_simple_block fuel data end_ = Ret (PyTuple2 pos total) ->
  0 <= pos /\ nth_error data (Z.to_nat pos) = Some marker /\
  accepted data (end_or_len data end_) pos (PyTuple2 pos total).
Proof.
  unfold find_last_webm_simple_block. intros H.
  apply loop_inv in H. destruct H as [H | (p & H0 & Hn & Ha)]; [discriminate|].
  assert (p = pos) by (inversion Ha; reflexivity). subst p.
  auto.
Qed.

Lemma accepted_bounds (data : bytes) (l pos total : Z) :
  0 <= pos -> accepted data l pos (PyTuple2 pos total) ->
  pos + 5 < len data /\ pos + 5 < l /\ 2 <= total.
Proof.
  intros Hpos Ha.
  inversion Ha as [sz sb tr tb b Hroom Hs Ht Htr Hfl Hb Hflag Hv].
  apply read_ebml_size_some in Hs. apply read_ebml_size_some in Ht.
  apply getitem_inv in Hb; [|lia].
  unfold len. lia.
Qed.

(** C6.  When the locator succeeds, the pair it returns is
    (candidatePosition, decodedSize + 1 + sizeFieldWidth): the byte at the
    position is the marker 0xA3, the field right after the marker decodes
    under max_bytes = 2 to the size, and the track field right after it
    decodes to a value below 5. *)
Theorem find_last_returns_candidate_and_width
  (fuel : nat) (data : bytes) (end_ : option Z) (pos total : Z) :
  find_last_webm_simple_block fuel data end_ = Ret (PyTuple2 pos total) ->
  getitem data pos = Ret marker /\ byte_val marker = 163 /\
  exists size size_bytes track track_bytes,
    read_ebml_size data (pos + 1) 2 = Ret (Some size, size_bytes) /\
    total = size + 1 + size_bytes /\
    read_ebml_size data (pos + 1 + size_bytes) 2 = Ret (Some track, track_bytes) /\
    track < 5.
Proof.
  intros H. apply find_last_inv in H. destruct H as (Hpos & Hn & Ha).
  split; [apply getitem_nth; assumption|].
  split; [reflexivity|].
  inversion Ha as [sz sb tr tb b Hroom Hs Ht Htr Hfl Hb Hflag Hv].
  exists sz, sb, tr, tb. auto.
Qed.

(** A buffer that is one complete SimpleBlock of seven bytes. *)
Lemma find_last_returns_candidate_and_width_witness :
  getitem [xa3; x85; x81; x12; x34; x80; x00] 0 = Ret marker /\
  byte_val marker = 163 /\
  exists size size_bytes track track_bytes,
    read_ebml_size [xa3; x85; x81; x12; x34; x80; x00] (0 + 1) 2
    = Ret (Some size, size_bytes) /\
    7 = size + 1 + size_bytes /\
    read_ebml_size [xa3; x85; x81; x12; x34; x80; x00] (0 + 1 + size_bytes) 2
    = Ret (Some track, track_bytes) /\
    track < 5.
Proof.
  apply (find_last_returns_candidate_and_width 1
           [xa3; x85; x81; x12; x34; x80; x00] None 0 7).
  reflexivity.
Defined.




(** C4, as stated, fails: the size field of this block says 127 bytes, so
    the locator returns (0, 129) on a buffer of 7 bytes. *)
Lemma position_plus_width_counterexample :
  ~ (forall (fuel : nat) (data : bytes) (end_ : option Z) (pos total : Z),
        find_last_webm_simple_block fuel data end_ = Ret (PyTuple2 pos total) ->
        pos + total <= len data).
Proof.
  intros H.
  specialize (H 1%nat [xa3; xff; x81; x00; x00; x80; x00] None 0 129 eq_refl).
  cbv in H. apply H. reflexivity.
Qed.

(** C4, amended.  A located candidate has its header inside the buffer and
    inside the search range: the marker, both fields, the two skipped bytes
    and the flag byte, so position + 5 is below the buffer length and below
    the search end; the returned width is at least 2.  The end of the
    element, position + width, is not bounded by the buffer length. *)
Theorem located_header_within_buffer
  (fuel : nat) (data : bytes) (end_ : option Z) (pos total : Z) :
  find_last_webm_simple_block fuel data end_ = Ret (PyTuple2 pos total) ->
  0 <= pos /\ pos + 5 < len data /\ pos + 5 < end_or_len data end_ /\
  2 <= total.
Proof.
  intros H. apply find_last_inv in H. destruct H as (Hpos & Hn & Ha).
  split; [exact Hpos|]. apply accepted_bounds; assumption.
Qed.

Lemma located_header_within_buffer_witness :
  0 <= 0 /\ 0 + 5 < len [xa3; xff; x81; x00; x00; x80; x00] /\
  0 + 5 < end_or_len [xa3; xff; x81; x00; x00; x80; x00] None /\
  2 <= 129.
Proof.
  apply (located_header_within_buffer 1
           [xa3; xff; x81; x00; x00; x80; x00] None 0 129).
  reflexivity.
Defined.

(** ** Termination of the backward scan *)

Lemma getitem_fuel {A : Type} (data : list A) (i : Z) : getitem data i <> NoFuel.
Proof.
  unfold getitem.
  destruct ((0 <=? _) && _); [|discriminate].
  destruct (nth_error data _); discriminate.
Qed.

Lemma read_ebml_size_fuel (data : bytes) (position max_bytes : Z) :
  read_ebml_size data position max_bytes <> NoFuel.
Proof.
  unfold read_ebml_size.
  pose proof (getitem_fuel data position) as Hg.
  destruct (getitem data position) as [b| |]; cbn [bind];
    [|discriminate|contradiction].
  destruct (_ >? _); [discriminate|].
  destruct (_ =? _); [discriminate|].
  destruct (_ <? _); discriminate.
Qed.

Lemma check_candidate_fuel (data : bytes) (l pos : Z) :
  check_candidate data l pos <> NoFuel.
Proof.
  unfold check_candidate.
  destruct (pos + 5 <? l); [|discriminate].
  pose proof (read_ebml_size_fuel data (pos + 1) 2) as Hs.
  destruct (read_ebml_size data (pos + 1) 2) as [[[sz|] sb]| |]; cbn [bind];
    try discriminate; try contradiction.
  pose proof (read_ebml_size_fuel data (pos + 1 + sb) 2) as Ht.
  destruct (read_ebml_size data (pos + 1 + sb) 2) as [[[tr|] tb]| |]; cbn [bind];
    try discriminate; try contradiction.
  destruct (tr <? 5); [|discriminate].
  destruct (_ <? l); [|discriminate].
  pose proof (getitem_fuel data (pos + 1 + sb + tb + 2)) as Hb.
  destruct (getitem data (pos + 1 + sb + tb + 2)) as [b| |]; cbn [bind];
    try discriminate; try contradiction.
  destruct (_ || _); discriminate.
Qed.

Lemma loop_body_fuel (data : bytes) (l pos : Z) : loop_body data l pos <> NoFuel.
Proof.
  unfold loop_body.
  destruct (_ =? -1); [discriminate|].
  pose proof (check_candidate_fuel data l (rfind data marker 0 pos)) as Hc.
  destruct (check_candidate data l (rfind data marker 0 pos)) as [[v|]| |];
    cbn [bind]; try discriminate; contradiction.
Qed.

(** In a buffer that does not begin with the marker byte, the cursor, read
    as a slice bound, goes down at every turn, so that many turns are
    enough. *)
Lemma loop_terminates (data : bytes) (l : Z) :
  nth_error data 0 <> Some marker ->
  forall (fuel : nat) (pos : Z),
    slice_index (len data) pos < Z.of_nat fuel ->
    loop fuel data l pos <> NoFuel.
Proof.
  intros Hfirst. induction fuel as [|fuel IH]; intros pos Hpos.
  - pose proof (slice_index_range (len data) pos ltac:(unfold len; lia)). lia.
  - cbn [loop].
    pose proof (loop_body_fuel data l pos) as Hb.
    destruct (loop_body data l pos) as [c| |] eqn:Hc; cbn [bind];
      [|discriminate|contradiction].
    destruct c as [v | pos']; [discriminate|].
    apply (loop_body_inv _ _ _ _ _ eq_refl) in Hc.
    destruct Hc as (Hr & -> & Hn).
    assert (rfind data marker 0 pos <> 0)
      by (intros E; rewrite E in Hn; cbn in Hn; contradiction).
    pose proof (slice_index_range (len data) pos ltac:(unfold len; lia)).
    apply IH. rewrite slice_index_id; lia.
Qed.

(** The locator returns or raises within [length data + 1] turns on every
    buffer that does not begin with the marker byte, whatever the search
    end. *)
Lemma find_last_terminates (data : bytes) (end_ : option Z) :
  nth_error data 0 <> Some marker ->
  find_last_webm_simple_block (S (length data)) data end_ <> NoFuel.
Proof.
  intros Hfirst. unfold find_last_webm_simple_block.
  apply loop_terminates; [exact Hfirst|].
  pose proof (slice_index_range (len data) (end_or_len data end_)
                ltac:(unfold len; lia)).
  unfold len in *. lia.
Qed.

(** C7 fails on the code.  In the two-byte buffer A3 00 the only candidate
    is at 0 and is turned down; line 115 makes [pos] -1, and
    [rfind(b"\xA3", 0, -1)] reads -1 as [len(data) - 1], finds the byte at 0
    again, and the loop goes round for ever: no amount of fuel gives a
    result. *)
Theorem find_last_loops_on_leading_marker :
  forall fuel : nat,
    find_last_webm_simple_block fuel [xa3; x00] None = NoFuel.
Proof.
  assert (Hcycle : forall fuel, loop fuel [xa3; x00] 2 (-1) = NoFuel).
  { induction fuel as [|fuel IH]; [reflexivity|].
    cbn [loop].
    replace (loop_body [xa3; x00] 2 (-1)) with (Ret (Continue (-1)))
      by reflexivity.
    exact IH. }
  intros [|fuel]; [reflexivity|].
  unfold find_last_webm_simple_block.
  replace (end_or_len [xa3; x00] None) with 2 by reflexivity.
  cbn [loop].
  replace (loop_body [xa3; x00] 2 2) with (Ret (Continue (-1))) by reflexivity.
  apply Hcycle.
Qed.

(** C10.  [end = 0] is read as no end at all: the search end is the buffer
    length and the call gives what the call without [end] gives, on every
    buffer; on the buffer below, the block at 8 is found. *)
Theorem end_zero_searches_whole_buffer :
  (forall data : bytes, end_or_len data (Some 0) = len data) /\
  (forall (fuel : nat) (data : bytes),
      find_last_webm_simple_block fuel data (Some 0)
      = find_last_webm_simple_block fuel data None) /\
  find_last_webm_simple_block 1
    [x00; xa3; x85; x81; x12; x34; x80; x00;
     xa3; x85; x81; x12; x34; x80; x00] (Some 0)
  = Ret (PyTuple2 8 7).
Proof.
  split; [reflexivity|]. split; reflexivity.
Qed.

(** ** The value of a two-byte field *)

(** Whenever the first byte announces a width of two, the value keeps the
    five low bits of the first byte, [0xFF >> 3] being 0x1F, and the whole
    second byte. *)
Lemma read_ebml_size_two_bytes (b0 b1 : byte) :
  count_marker (byte_val b0) [7; 6; 5; 4; 3; 2; 1; 0] 1 = 2 ->
  read_ebml_size [b0; b1] 0 2
  = Ret (Some (Z.lor (Z.shiftl (Z.land (byte_val b0) 31) 8) (byte_val b1)), 2).
Proof.
  intros Hc. unfold read_ebml_size.
  change (getitem [b0; b1] 0) with (Ret b0). cbn [bind].
  rewrite Hc. reflexivity.
Qed.

(** C2 fails on the code.  The two bytes 60 00 are a two-byte field, 01
    followed by the six bits 100000 and a zero byte: masking out exactly the
    two marker bits gives 0x2000 = 8192, but line 156 masks with
    [0xFF >> (num_bytes + 1)] = 0x1F, drops the top value bit as well and
    returns 0.  The single-byte path masks with 0x7F, one marker bit, and
    0x82 decodes to (2, 1). *)
Theorem read_ebml_size_masks_one_bit_too_many :
  read_ebml_size [x60; x00] 0 2 = Ret (Some 0, 2) /\
  Z.lor (Z.shiftl (Z.land (byte_val x60) (Z.shiftr 255 2)) 8) (byte_val x00)
  = 8192 /\
  read_ebml_size [x82] 0 1 = Ret (Some 2, 1).
Proof.
  repeat split.
Qed.

(** ** The packet scanner *)

Lemma scan_packets_start_mono (packets : list Packet) (sb1 sb2 : Z) :
  sb1 < sb2 ->
  forall (acc1 acc2 : list Packet) (byte_ptr k1 k2 : Z),
    k1 <= k2 -> k1 <= byte_ptr ->
    snd (scan_packets packets sb1 acc1 byte_ptr k1)
    <= snd (scan_packets packets sb2 acc2 byte_ptr k2).
Proof.
  intros Hsb. induction packets as [|p rest IH]; intros acc1 acc2 b k1 k2 Hk Hb.
  - exact Hk.
  - cbn [scan_packets]. apply IH.
    + destruct (is_keyframe p); cbn [andb]; [|exact Hk].
      destruct (b <? sb1) eqn:E1; destruct (b <? sb2) eqn:E2;
        try apply Z.ltb_lt in E1; try apply Z.ltb_ge in E1;
        try apply Z.ltb_lt in E2; try apply Z.ltb_ge in E2; lia.
    + destruct (is_keyframe p && (b <? sb1)); lia.
Qed.

(** C8.  The keyframe start the scanner selects does not go down when the
    split point goes up. *)
Theorem key_frame_start_monotone
  (packets : list Packet) (split_before1 split_before2 : Z) :
  split_before1 < split_before2 ->
  snd (select_packets packets split_before1)
  <= snd (select_packets packets split_before2).
Proof.
  intros H. unfold select_packets.
  apply scan_packets_start_mono; [exact H | lia | lia].
Qed.

(** Three packets at offsets 0, 50 and 90, the first two keyframes: the
    start is 0 for a split before 10 and 50 for a split before 60. *)
Lemma key_frame_start_monotone_witness :
  snd (select_packets
         [mkPacket 50 true (Some 0) (Some 0);
          mkPacket 40 true (Some 20) (Some 20);
          mkPacket 30 false (Some 40) (Some 40)] 10)
  <= snd (select_packets
            [mkPacket 50 true (Some 0) (Some 0);
             mkPacket 40 true (Some 20) (Some 20);
             mkPacket 30 false (Some 40) (Some 40)] 60).
Proof.
  apply (key_frame_start_monotone
           [mkPacket 50 true (Some 0) (Some 0);
            mkPacket 40 true (Some 20) (Some 20);
            mkPacket 30 false (Some 40) (Some 40)] 10 60).
  lia.
Defined.

(** With no keyframe below the split point the accumulator is never reset:
    the scan ends with everything it was handed and the start it began
    with. *)
Lemma scan_packets_no_keyframe (packets : list Packet) (split_before : Z) :
  forall (acc : list Packet) (byte_ptr key_frame_start : Z),
    Forall (fun o => split_before <= o) (keyframe_offsets packets byte_ptr) ->
    exists total,
      scan_packets packets split_before acc byte_ptr key_frame_start
      = (acc ++ packets, total, key_frame_start).
Proof.
  induction packets as [|p rest IH]; intros acc b k H.
  - exists b. cbn. rewrite app_nil_r. reflexivity.
  - cbn [scan_packets keyframe_offsets] in *.
    apply Forall_app in H. destruct H as [Hp Hrest].
    assert (E : is_keyframe p && (b <? split_before) = false).
    { destruct (is_keyframe p); [|reflexivity]. cbn.
      apply Z.ltb_ge. inversion Hp; assumption. }
    rewrite E.
    destruct (IH (acc ++ [p]) (b + Z.of_N (size p)) k Hrest) as [total Ht].
    exists total. rewrite Ht, <- app_assoc. reflexivity.
Qed.

(** C1, as stated, fails.  Split before 0: the one packet is a keyframe at
    offset 0, which is not below 0, and the split returns a buffer. *)
Lemma no_keyframe_counterexample :
  ~ (forall (Stream Output : Type) (av_demux : bytes -> demuxed Stream)
            (av_open_output : Stream -> option Output)
            (av_mux : Output -> Packet -> option Output)
            (av_close : Output -> option bytes)
            (fuel : nat) (audio : bytes) (split_before : Z)
            (adjust_timestamps : bool) (last_start size : Z)
            (audio_stream : Stream) (packets : list Packet),
        find_last_webm_simple_block fuel audio None
        = Ret (PyTuple2 last_start size) ->
        av_demux (slice_to audio
                    (if len audio =? last_start + size then last_start + size
                     else last_start))
        = AudioStream audio_stream packets ->
        Forall (fun o => split_before <= o) (keyframe_offsets packets 0) ->
        forall out : bytes,
          split_webm_buffer av_demux av_open_output av_mux av_close fuel audio
            split_before adjust_timestamps <> Ret out).
Proof.
  intros H.
  apply (H unit unit
           (fixed_demux [mkPacket 7 true (Some 0) (Some 0)])
           fixed_open fixed_mux
           (fixed_close [xa3; x85; x81; x00; x00; x80; x00; x1c; x53; xbb; x6b])
           1%nat [xa3; x85; x81; x12; x34; x80; x00] 0 false 0 7 tt
           [mkPacket 7 true (Some 0) (Some 0)] eq_refl eq_refl
           ltac:(repeat constructor; cbv; discriminate)
           [xa3; x85; x81; x00; x00; x80; x00]).
  reflexivity.
Qed.

(** C1, amended.  When no keyframe starts below the split point, the
    scanner keeps every demuxed packet, in order, with the start left at
    its initial -1, and the split goes on to remux that selection. *)
Theorem no_keyframe_selects_every_packet
  (Stream Output : Type) (av_demux : bytes -> demuxed Stream)
  (av_open_output : Stream -> option Output)
  (av_mux : Output -> Packet -> option Output)
  (av_close : Output -> option bytes)
  (fuel : nat) (audio : bytes) (split_before : Z) (adjust_timestamps : bool)
  (last_start size : Z) (audio_stream : Stream) (packets : list Packet) :
  find_last_webm_simple_block fuel audio None = Ret (PyTuple2 last_start size) ->
  av_demux (slice_to audio
              (if len audio =? last_start + size then last_start + size
               else last_start))
  = AudioStream audio_stream packets ->
  Forall (fun o => split_before <= o) (keyframe_offsets packets 0) ->
  (exists total, select_packets packets split_before = (packets, total, -1)) /\
  split_webm_buffer av_demux av_open_output av_mux av_close fuel audio
    split_before adjust_timestamps
  = remux av_open_output av_mux av_close fuel audio_stream packets
      adjust_timestamps
      (slice_from audio
         (if len audio =? last_start + size then last_start + size
          else last_start)).
Proof.
  intros Hfind Hdemux Hkey.
  destruct (scan_packets_no_keyframe packets split_before [] 0 (-1) Hkey)
    as [total Ht].
  cbn [app] in Ht.
  split; [exists total; exact Ht|].
  unfold split_webm_buffer. rewrite Hfind. cbn [bind unpack2].
  rewrite Hdemux. unfold select_packets. rewrite Ht. reflexivity.
Qed.

Lemma no_keyframe_selects_every_packet_witness :
  (exists total,
      select_packets [mkPacket 7 true (Some 0) (Some 0)] 0
      = ([mkPacket 7 true (Some 0) (Some 0)], total, -1)) /\
  split_webm_buffer
    (fixed_demux [mkPacket 7 true (Some 0) (Some 0)])
    fixed_open fixed_mux
    (fixed_close [xa3; x85; x81; x00; x00; x80; x00; x1c; x53; xbb; x6b])
    1 [xa3; x85; x81; x12; x34; x80; x00] 0 false
  = remux fixed_open fixed_mux
      (fixed_close [xa3; x85; x81; x00; x00; x80; x00; x1c; x53; xbb; x6b])
      1 tt [mkPacket 7 true (Some 0) (Some 0)] false
      (slice_from [xa3; x85; x81; x12; x34; x80; x00]
         (if len [xa3; x85; x81; x12; x34; x80; x00] =? 0 + 7 then 0 + 7
          else 0)).
Proof.
  apply (no_keyframe_selects_every_packet unit unit
           (fixed_demux [mkPacket 7 true (Some 0) (Some 0)])
           fixed_open fixed_mux
           (fixed_close [xa3; x85; x81; x00; x00; x80; x00; x1c; x53; xbb; x6b])
           1 [xa3; x85; x81; x12; x34; x80; x00] 0 false 0 7 tt
           [mkPacket 7 true (Some 0) (Some 0)]).
  - reflexivity.
  - reflexivity.
  - repeat constructor. cbv. discriminate.
Defined.

(** ** Rebasing the timestamps *)

Lemma adjust_all_false (dts_start pts_start : option Z) (packets : list Packet) :
  adjust_all false dts_start pts_start packets = Ret packets.
Proof.
  induction packets as [|p rest IH]; [reflexivity|].
  cbn [adjust_all]. unfold adjust_packet. cbn [andb bind].
  rewrite IH. reflexivity.
Qed.

Lemma set_timestamp_fits (v : Z) :
  fits_timestamp v -> set_timestamp v = Ret (Some v).
Proof.
  unfold fits_timestamp, set_timestamp. intros [Hlo Hhi].
  replace (v <? int64_min) with false by (symmetry; apply Z.ltb_ge; lia).
  replace (int64_max <? v) with false by (symmetry; apply Z.ltb_ge; lia).
  replace (v =? int64_min) with false by (symmetry; apply Z.eqb_neq; lia).
  reflexivity.
Qed.

Lemma adjust_all_true (d0 p0 : Z) (packets : list Packet) :
  Forall (fun p => dts p = None \/
                   exists d t, dts p = Some d /\ pts p = Some t /\
                               fits_timestamp (d - d0) /\
                               fits_timestamp (t - p0)) packets ->
  exists written,
    adjust_all true (Some d0) (Some p0) packets = Ret written /\
    Forall2 (rebased d0 p0) packets written.
Proof.
  induction packets as [|p rest IH]; intros H.
  - exists []. split; [reflexivity | constructor].
  - inversion H as [|? ? Hp Hrest]; subst.
    destruct (IH Hrest) as (ws & Hws & Hrel).
    cbn [adjust_all]. unfold adjust_packet. cbn [andb].
    destruct Hp as [Hd | (d & t & Hd & Hpt & Hfd & Hft)].
    + rewrite Hd. cbn [is_some bind]. rewrite Hws. cbn [bind].
      eexists. split; [reflexivity|].
      constructor; [|exact Hrel].
      unfold rebased. rewrite Hd. repeat split.
    + rewrite Hd, Hpt. cbn [is_some py_sub bind].
      rewrite (set_timestamp_fits _ Hfd). cbn [bind].
      rewrite (set_timestamp_fits _ Hft). cbn [bind].
      rewrite Hws. cbn [bind].
      eexists. split; [reflexivity|].
      constructor; [|exact Hrel].
      unfold rebased. cbn. rewrite Hd. repeat split.
      exists t. split; [exact Hpt | reflexivity].
Qed.

(** C5, as stated, fails.  A packet with a [dts] and no [pts] makes line 67
    subtract from [None], which raises; and a packet with a [pts] and no
    [dts] keeps its [pts] as it was, the guard being on [dts] alone. *)
Lemma rebase_each_field_counterexample :
  ~ (forall (adjust_timestamps : bool) (packets : list Packet),
        packets <> [] ->
        write_packets adjust_timestamps packets
        = Ret (rebase_as_specified adjust_timestamps packets)).
Proof.
  intros H.
  specialize (H true [mkPacket 7 true (Some 10) None] ltac:(discriminate)).
  cbv in H. discriminate H.
Qed.

(** C5, amended.  Without [adjust_timestamps] the packets are written with
    the timestamps they had.  With it, when the first selected packet has
    both timestamps and every later packet that has a [dts] has a [pts] and
    differences to the first packet's values that fit the timestamp field,
    every packet with a [dts] is written with the first packet's [dts]
    taken off its [dts] and the first packet's [pts] taken off its [pts],
    the first packet itself with 0 and 0, and every packet without a [dts]
    is written as it is. *)
Theorem write_packets_rebases_on_dts :
  (forall (first : Packet) (rest : list Packet),
      write_packets false (first :: rest) = Ret (first :: rest)) /\
  (forall (first : Packet) (rest : list Packet) (d0 p0 : Z),
      dts first = Some d0 -> pts first = Some p0 ->
      Forall (fun p => dts p = None \/
                       exists d t, dts p = Some d /\ pts p = Some t /\
                                   fits_timestamp (d - d0) /\
                                   fits_timestamp (t - p0)) rest ->
      exists (first' : Packet) (rest' : list Packet),
        write_packets true (first :: rest) = Ret (first' :: rest') /\
        dts first' = Some 0 /\ pts first' = Some 0 /\
        Forall2 (rebased d0 p0) rest rest').
Proof.
  split.
  - intros first rest. unfold write_packets.
    change (getitem (first :: rest) 0) with (Ret first). cbn [bind].
    apply adjust_all_false.
  - intros first rest d0 p0 Hd Hp Hrest.
    assert (Hzero : fits_timestamp 0)
      by (unfold fits_timestamp, int64_min, int64_max; lia).
    assert (Hall : Forall (fun p => dts p = None \/
                                    exists d t, dts p = Some d /\ pts p = Some t /\
                                                fits_timestamp (d - d0) /\
                                                fits_timestamp (t - p0))
                     (first :: rest)).
    { constructor; [|exact Hrest]. right. exists d0, p0.
      rewrite !Z.sub_diag. auto. }
    destruct (adjust_all_true d0 p0 (first :: rest) Hall) as (ws & Hws & Hrel).
    inversion Hrel as [|? q ? qs Hq Hqs]; subst.
    exists q, qs. unfold write_packets.
    change (getitem (first :: rest) 0) with (Ret first). cbn [bind].
    rewrite Hd, Hp. split; [exact Hws|].
    destruct Hq as (_ & _ & Hq). rewrite Hd in Hq.
    destruct Hq as (Hq1 & t & Ht & Hq2).
    rewrite Hp in Ht. injection Ht as <-.
    rewrite Hq1, Hq2, !Z.sub_diag. auto.
Qed.

(** Blocks 2 and 3 of a stream, at 20 and 40, and a last packet without
    timestamps. *)
Lemma write_packets_rebases_on_dts_witness :
  write_packets false
    [mkPacket 40 true (Some 20) (Some 20); mkPacket 30 false (Some 40) (Some 40)]
  = Ret [mkPacket 40 true (Some 20) (Some 20);
         mkPacket 30 false (Some 40) (Some 40)] /\
  exists (first' : Packet) (rest' : list Packet),
    write_packets true
      [mkPacket 40 true (Some 20) (Some 20);
       mkPacket 30 false (Some 40) (Some 40);
       mkPacket 0 false None None]
    = Ret (first' :: rest') /\
    dts first' = Some 0 /\ pts first' = Some 0 /\
    Forall2 (rebased 20 20)
      [mkPacket 30 false (Some 40) (Some 40); mkPacket 0 false None None] rest'.
Proof.
  split.
  - apply (proj1 write_packets_rebases_on_dts).
  - apply (proj2 write_packets_rebases_on_dts
             (mkPacket 40 true (Some 20) (Some 20))
             [mkPacket 30 false (Some 40) (Some 40); mkPacket 0 false None None]
             20 20).
    + reflexivity.
    + reflexivity.
    + apply Forall_cons.
      * right. exists 40, 40.
        unfold fits_timestamp, int64_min, int64_max. cbn [dts pts].
        repeat split; lia.
      * apply Forall_cons; [left; reflexivity | apply Forall_nil].
Defined.

(** ** The not-found return at the two call sites *)

Lemma getitem_in_range {A : Type} (data : list A) (i : Z) :
  0 <= i < Z.of_nat (length data) -> exists x, getitem data i = Ret x.
Proof.
  intros Hi.
  destruct (nth_error data (Z.to_nat i)) as [x|] eqn:Hn.
  - exists x. apply getitem_nth; [lia | exact Hn].
  - apply nth_error_None in Hn. lia.
Qed.

Lemma read_ebml_size_in_range (data : bytes) (position max_bytes : Z) :
  0 <= position < len data ->
  exists r, read_ebml_size data position max_bytes = Ret r.
Proof.
  intros Hp. unfold read_ebml_size.
  destruct (getitem_in_range data position Hp) as [b ->]. cbn [bind].
  destruct (_ >? _); [eauto|].
  destruct (_ =? _); [eauto|].
  destruct (_ <? _); eauto.
Qed.

(** With the search end inside the buffer, the checks on a candidate read
    only bytes that are there and raise nothing. *)
Lemma check_candidate_returns (data : bytes) (l pos : Z) :
  0 <= pos -> l <= len data -> exists r, check_candidate data l pos = Ret r.
Proof.
  intros Hpos Hl. unfold check_candidate.
  destruct (pos + 5 <? l) eqn:Hroom; [|eauto].
  apply Z.ltb_lt in Hroom.
  destruct (read_ebml_size_in_range data (pos + 1) 2 ltac:(lia)) as [[sz sb] Hs].
  rewrite Hs. cbn [bind].
  destruct sz as [sz|]; [|eauto].
  pose proof (read_ebml_size_some _ _ _ _ Hs) as [Hsb _].
  destruct (read_ebml_size_in_range data (pos + 1 + sb) 2 ltac:(lia))
    as [[tr tb] Ht].
  rewrite Ht. cbn [bind].
  destruct tr as [tr|]; [|eauto].
  pose proof (read_ebml_size_some _ _ _ _ Ht) as [Htb _].
  destruct (tr <? 5); [|eauto].
  destruct (pos + 1 + sb + tb + 2 <? l) eqn:Hfl; [|eauto].
  apply Z.ltb_lt in Hfl.
  destruct (getitem_in_range data (pos + 1 + sb + tb + 2)
              ltac:(unfold len in Hl; lia)) as [b ->].
  cbn [bind]. destruct (_ || _); eauto.
Qed.

(** In a buffer that does not begin with the marker byte and in which the
    checks turn every marker position down, the scan comes to its line
    101. *)
Lemma loop_not_found (data : bytes) (l : Z) :
  l <= len data ->
  nth_error data 0 <> Some marker ->
  (forall pos v, 0 <= pos < len data ->
                 nth_error data (Z.to_nat pos) = Some marker ->
                 check_candidate data l pos <> Ret (Some v)) ->
  forall (fuel : nat) (pos : Z),
    slice_index (len data) pos < Z.of_nat fuel ->
    loop fuel data l pos = Ret (PyInt (-1)).
Proof.
  intros Hl Hfirst Hnone. induction fuel as [|fuel IH]; intros pos Hpos.
  - pose proof (slice_index_range (len data) pos ltac:(unfold len; lia)). lia.
  - pose proof (slice_index_range (len data) pos ltac:(unfold len; lia)) as Hrange.
    cbn [loop]. unfold loop_body.
    destruct (rfind_spec data marker pos) as [E | [Hr Hn]].
    + rewrite E. reflexivity.
    + destruct (rfind data marker 0 pos =? -1) eqn:E;
        [apply Z.eqb_eq in E; lia|].
      destruct (check_candidate_returns data l (rfind data marker 0 pos)
                  ltac:(lia) Hl) as [r Hc].
      rewrite Hc. cbn [bind].
      destruct r as [v|];
        [exfalso; apply (Hnone (rfind data marker 0 pos) v);
         [lia | exact Hn | exact Hc]|].
      cbn [bind].
      assert (rfind data marker 0 pos <> 0)
        by (intros E0; rewrite E0 in Hn; cbn in Hn; contradiction).
      apply IH. rewrite slice_index_id; lia.
Qed.

(** C9 fails on the code, by the defect of C7.  In the two-byte buffer
    A3 00 the one candidate, at 0, does not pass the checks, so no
    candidate validates before the cursor reaches the buffer start; yet the
    locator returns neither -1 nor anything else, whatever the fuel, and
    [split_webm_buffer] on that buffer never comes to unpack a result: no
    TypeError is raised, the call does not end. *)
Theorem not_found_never_surfaces_on_leading_marker :
  check_candidate [xa3; x00] (len [xa3; x00]) 0 = Ret None /\
  (forall fuel : nat,
      find_last_webm_simple_block fuel [xa3; x00] None = NoFuel) /\
  (forall (Stream Output : Type) (av_demux : bytes -> demuxed Stream)
          (av_open_output : Stream -> option Output)
          (av_mux : Output -> Packet -> option Output)
          (av_close : Output -> option bytes)
          (fuel : nat) (split_before : Z) (adjust_timestamps : bool),
      split_webm_buffer av_demux av_open_output av_mux av_close fuel
        [xa3; x00] split_before adjust_timestamps = NoFuel).
Proof.
  assert (Hturn : forall pos, pos = 2 \/ pos = -1 ->
                              loop_body [xa3; x00] 2 pos = Ret (Continue (-1)))
    by (intros pos [-> | ->]; reflexivity).
  assert (Hcycle : forall fuel, loop fuel [xa3; x00] 2 (-1) = NoFuel).
  { induction fuel as [|fuel IH]; [reflexivity|].
    cbn [loop]. rewrite (Hturn (-1)) by (right; reflexivity). exact IH. }
  assert (Hfind : forall fuel,
             find_last_webm_simple_block fuel [xa3; x00] None = NoFuel).
  { intros [|fuel]; [reflexivity|].
    unfold find_last_webm_simple_block.
    change (end_or_len [xa3; x00] None) with 2.
    cbn [loop]. rewrite (Hturn 2) by (left; reflexivity). apply Hcycle. }
  split; [reflexivity|]. split; [exact Hfind|].
  intros Stream Output av_demux av_open_output av_mux av_close fuel
    split_before adjust_timestamps.
  unfold split_webm_buffer. rewrite Hfind. reflexivity.
Qed.

(** * Further properties of the three functions *)

(** ** read_ebml_size at the edges *)

Lemma getitem_out_of_range {A : Type} (data : list A) (i : Z) :
  Z.of_nat (length data) <= i \/ i < - Z.of_nat (length data) ->
  getitem data i = Raise IndexError.
Proof.
  intros H. unfold getitem.
  destruct (i <? 0) eqn:Hneg.
  - apply Z.ltb_lt in Hneg.
    replace (0 <=? i + Z.of_nat (length data)) with false
      by (symmetry; apply Z.leb_gt; lia).
    reflexivity.
  - apply Z.ltb_ge in Hneg.
    replace (i <? Z.of_nat (length data)) with false
      by (symmetry; apply Z.ltb_ge; lia).
    rewrite andb_false_r. reflexivity.
Qed.

(** X1.  A position at or past the end of the buffer, or further back than
    its length, makes line 130 raise IndexError; on such a position the
    function returns no [None]. *)
Theorem read_ebml_size_out_of_range (data : bytes) (position max_bytes : Z) :
  len data <= position \/ position < - len data ->
  read_ebml_size data position max_bytes = Raise IndexError.
Proof.
  intros H. unfold read_ebml_size.
  rewrite getitem_out_of_range by exact H. reflexivity.
Qed.

Lemma read_ebml_size_out_of_range_witness :
  read_ebml_size [x82] 1 2 = Raise IndexError.
Proof.
  apply (read_ebml_size_out_of_range [x82] 1 2).
  left. change (len [x82]) with 1. lia.
Defined.

(** X2.  Whatever [max_bytes] is, the width the function reports is between
    1 and 9, and a value comes with it only when the width is within
    [max_bytes]; the value is never negative. *)
Theorem read_ebml_size_width (data : bytes) (position max_bytes : Z)
  (value : option Z) (num_bytes : Z) :
  read_ebml_size data position max_bytes = Ret (value, num_bytes) ->
  1 <= num_bytes <= 9 /\
  forall v, value = Some v -> num_bytes <= max_bytes /\ 0 <= v.
Proof.
  unfold read_ebml_size.
  destruct (getitem data position) as [b| |]; cbn [bind]; try discriminate.
  pose proof (count_marker_range (byte_val b) [7; 6; 5; 4; 3; 2; 1; 0] 1) as Hc.
  cbn [length] in Hc.
  set (n := count_marker (byte_val b) [7; 6; 5; 4; 3; 2; 1; 0] 1) in *.
  pose proof (byte_val_range b) as Hb.
  destruct (n >? max_bytes) eqn:Hmax.
  - intros [= <- <-]. split; [lia | discriminate].
  - assert (n <= max_bytes)
      by (rewrite Z.gtb_ltb in Hmax; apply Z.ltb_ge in Hmax; exact Hmax).
    destruct (n =? 1) eqn:H1.
    + intros [= <- <-]. split; [lia|]. intros v [= <-].
      split; [lia|]. apply Z.land_nonneg. right. lia.
    + destruct (len data <? position + n).
      * intros [= <- <-]. split; [lia | discriminate].
      * intros [= <- <-]. split; [lia|]. intros v [= <-].
        split; [lia|]. apply assemble_nonneg. lia.
Qed.

Lemma read_ebml_size_width_witness :
  1 <= 2 <= 9 /\ forall v, Some 8191 = Some v -> 2 <= 2 /\ 0 <= v.
Proof.
  apply (read_ebml_size_width [x7f; xff] 0 2 (Some 8191) 2).
  reflexivity.
Defined.

Lemma one_byte_field (b : byte) :
  128 <= byte_val b ->
  count_marker (byte_val b) [7; 6; 5; 4; 3; 2; 1; 0] 1 = 1 /\
  Z.land (byte_val b) 127 = byte_val b - 128.
Proof.
  destruct b; intros H;
    first [ split; reflexivity | exfalso; apply H; reflexivity ].
Qed.

(** X3.  A first byte of 0x80 or more is a field of one byte: for every
    [max_bytes] of at least 1 the value is the byte less its top bit and the
    width is 1, wherever in the buffer the byte is. *)
Theorem read_ebml_size_one_byte (data : bytes) (position max_bytes : Z)
  (b : byte) :
  getitem data position = Ret b ->
  128 <= byte_val b ->
  1 <= max_bytes ->
  read_ebml_size data position max_bytes = Ret (Some (byte_val b - 128), 1).
Proof.
  intros Hb H128 Hmax. unfold read_ebml_size. rewrite Hb. cbn [bind].
  destruct (one_byte_field b H128) as [-> ->].
  replace (1 >? max_bytes) with false
    by (symmetry; rewrite Z.gtb_ltb; apply Z.ltb_ge; exact Hmax).
  reflexivity.
Qed.

Lemma read_ebml_size_one_byte_witness :
  read_ebml_size [xa3; x85; x81] 1 2 = Ret (Some (byte_val x85 - 128), 1).
Proof.
  apply (read_ebml_size_one_byte [xa3; x85; x81] 1 2 x85).
  - reflexivity.
  - change (byte_val x85) with 133. lia.
  - lia.
Defined.

Lemma skipn_nth_error {A : Type} (l : list A) (n : nat) (x : A) :
  nth_error l n = Some x -> skipn n l = x :: skipn (S n) l.
Proof.
  revert l. induction n as [|n IH]; intros [|y l] H; try discriminate.
  - injection H as ->. reflexivity.
  - cbn [nth_error] in H. cbn [skipn]. rewrite (IH l H). reflexivity.
Qed.

Lemma slice_two (data : bytes) (position : Z) (b0 b1 : byte) :
  0 <= position ->
  nth_error data (Z.to_nat position) = Some b0 ->
  nth_error data (Z.to_nat (position + 1)) = Some b1 ->
  slice data position (position + 2) = [b0; b1].
Proof.
  intros Hp H0 H1.
  assert (Hlen : (Z.to_nat (position + 1) < length data)%nat)
    by (apply nth_error_Some; rewrite H1; discriminate).
  unfold slice.
  rewrite !slice_index_id by lia.
  replace (Z.to_nat (position + 2 - position)) with 2%nat by lia.
  rewrite (skipn_nth_error _ _ _ H0).
  replace (Z.to_nat (position + 1)) with (S (Z.to_nat position)) in H1 by lia.
  rewrite (skipn_nth_error _ _ _ H1). reflexivity.
Qed.

(** A byte put under a value moved up by eight bits adds to it. *)
Lemma lor_shiftl_8 (a c : Z) :
  0 <= c < 256 -> Z.lor (Z.shiftl a 8) c = a * 256 + c.
Proof.
  intros Hc.
  assert (Hland : Z.land (Z.shiftl a 8) c = 0).
  { apply Z.bits_inj'. intros n Hn.
    rewrite Z.land_spec, Z.bits_0.
    destruct (Z.ltb_spec n 8) as [Hlt | Hge].
    - rewrite Z.shiftl_spec_low by exact Hlt. reflexivity.
    - replace (Z.testbit c n) with false; [apply andb_false_r|].
      symmetry. destruct (Z.eq_dec c 0) as [-> | Hc0]; [apply Z.bits_0|].
      apply Z.bits_above_log2; [lia|].
      assert (Z.log2 c < 8) by (apply Z.log2_lt_pow2; lia). lia. }
  rewrite <- Z.lxor_lor by exact Hland.
  rewrite <- Z.add_nocarry_lxor by exact Hland.
  rewrite Z.shiftl_mul_pow2 by lia. reflexivity.
Qed.

Lemma two_byte_field (b : byte) :
  64 <= byte_val b < 128 ->
  count_marker (byte_val b) [7; 6; 5; 4; 3; 2; 1; 0] 1 = 2 /\
  Z.land (byte_val b) (Z.shiftr 255 (2 + 1)) = byte_val b mod 32.
Proof.
  destruct b; intros [H1 H2];
    first [ split; reflexivity
          | exfalso; apply H1; reflexivity
          | discriminate H2 ].
Qed.

(** X4.  A first byte from 0x40 to 0x7F is a field of two bytes.  With both
    bytes in the buffer the value is the five low bits of the first byte
    times 256 plus the second byte; with the first byte the last of the
    buffer the result is [(None, 2)]. *)
Theorem read_ebml_size_two_byte_field (data : bytes) (position max_bytes : Z)
  (b0 : byte) :
  0 <= position ->
  getitem data position = Ret b0 ->
  64 <= byte_val b0 < 128 ->
  2 <= max_bytes ->
  (position + 2 <= len data ->
   exists b1,
     getitem data (position + 1) = Ret b1 /\
     read_ebml_size data position max_bytes
     = Ret (Some (byte_val b0 mod 32 * 256 + byte_val b1), 2)) /\
  (len data < position + 2 ->
   read_ebml_size data position max_bytes = Ret (None, 2)).
Proof.
  intros Hp Hb0 Hrange Hmax.
  destruct (two_byte_field b0 Hrange) as [Hcount Hmask].
  unfold read_ebml_size. rewrite Hb0. cbn [bind]. rewrite Hcount.
  replace (2 >? max_bytes) with false
    by (symmetry; rewrite Z.gtb_ltb; apply Z.ltb_ge; exact Hmax).
  change (2 =? 1) with false. cbv iota.
  split; intros Hlen.
  - destruct (getitem_in_range data (position + 1)
                ltac:(unfold len in Hlen; lia)) as [b1 Hb1].
    exists b1. split; [exact Hb1|].
    replace (len data <? position + 2) with false
      by (symmetry; apply Z.ltb_ge; exact Hlen).
    apply getitem_inv in Hb0; [|lia]. apply getitem_inv in Hb1; [|lia].
    rewrite (slice_two data position b0 b1 Hp (proj2 Hb0) (proj2 Hb1)).
    cbn [assemble]. change (0 =? 0) with true. change (0 + 1 =? 0) with false.
    cbv iota. rewrite Hmask.
    rewrite lor_shiftl_8 by apply byte_val_range. reflexivity.
  - replace (len data <? position + 2) with true
      by (symmetry; apply Z.ltb_lt; exact Hlen).
    reflexivity.
Qed.

Lemma read_ebml_size_two_byte_field_witness :
  (0 + 2 <= len [x60; x07] ->
   exists b1,
     getitem [x60; x07] (0 + 1) = Ret b1 /\
     read_ebml_size [x60; x07] 0 2
     = Ret (Some (byte_val x60 mod 32 * 256 + byte_val b1), 2)) /\
  (len [x60; x07] < 0 + 2 -> read_ebml_size [x60; x07] 0 2 = Ret (None, 2)).
Proof.
  apply (read_ebml_size_two_byte_field [x60; x07] 0 2 x60).
  - lia.
  - reflexivity.
  - change (byte_val x60) with 96. lia.
  - lia.
Defined.

(** ** The size of what the locator reports *)

Lemma slice_length_two {A : Type} (data : list A) (position : Z) :
  (length (slice data position (position + 2)) <= 2)%nat.
Proof.
  unfold slice. rewrite length_firstn.
  assert (slice_index (Z.of_nat (length data)) (position + 2)
          - slice_index (Z.of_nat (length data)) position <= 2)
    by (unfold slice_index;
        destruct (position + 2 <? 0) eqn:E1; destruct (position <? 0) eqn:E2;
        try apply Z.ltb_lt in E1; try apply Z.ltb_ge in E1;
        try apply Z.ltb_lt in E2; try apply Z.ltb_ge in E2; lia).
  lia.
Qed.

(** Under [max_bytes = 2] a field of one byte is below 128 and a field of
    two bytes below 8192. *)
Lemma read_ebml_size_bound (data : bytes) (position value num_bytes : Z) :
  read_ebml_size data position 2 = Ret (Some value, num_bytes) ->
  value + num_bytes <= 8193.
Proof.
  unfold read_ebml_size.
  destruct (getitem data position) as [b| |]; cbn [bind]; try discriminate.
  pose proof (count_marker_range (byte_val b) [7; 6; 5; 4; 3; 2; 1; 0] 1) as Hc.
  set (n := count_marker (byte_val b) [7; 6; 5; 4; 3; 2; 1; 0] 1) in *.
  pose proof (byte_val_range b) as Hb.
  destruct (n >? 2) eqn:Hmax; [discriminate|].
  assert (n <= 2) by (rewrite Z.gtb_ltb in Hmax; apply Z.ltb_ge in Hmax; exact Hmax).
  destruct (n =? 1) eqn:H1.
  - intros [= <- <-].
    change 127 with (Z.ones 7). rewrite Z.land_ones by lia.
    pose proof (Z.mod_pos_bound (byte_val b) (2 ^ 7) ltac:(lia)). lia.
  - apply Z.eqb_neq in H1. assert (n = 2) by lia.
    destruct (len data <? position + n); [discriminate|].
    intros [= <- <-]. replace n with 2 by lia.
    pose proof (slice_length_two data position) as Hlen.
    destruct (slice data position (position + 2)) as [|c0 [|c1 [|c2 rest]]];
      cbn [assemble length] in *.
    + lia.
    + change (0 =? 0) with true. cbv iota.
      change (Z.shiftr 255 (2 + 1)) with (Z.ones 5).
      rewrite Z.land_ones by lia.
      pose proof (Z.mod_pos_bound (byte_val c0) (2 ^ 5) ltac:(lia)). lia.
    + change (0 =? 0) with true. change (0 + 1 =? 0) with false. cbv iota.
      change (Z.shiftr 255 (2 + 1)) with (Z.ones 5).
      rewrite Z.land_ones by lia.
      rewrite lor_shiftl_8 by apply byte_val_range.
      pose proof (Z.mod_pos_bound (byte_val c0) (2 ^ 5) ltac:(lia)).
      pose proof (byte_val_range c1). lia.
    + lia.
Qed.

(** X5.  The width the locator returns is the decoded size plus the marker
    and the size field, and the size field holds 13 bits at most: the width
    is never above 8194, however long the block in the buffer is. *)
Theorem find_last_width_bound
  (fuel : nat) (data : bytes) (end_ : option Z) (pos total : Z) :
  find_last_webm_simple_block fuel data end_ = Ret (PyTuple2 pos total) ->
  2 <= total <= 8194.
Proof.
  intros H. apply find_last_inv in H. destruct H as (Hpos & _ & Ha).
  pose proof (accepted_bounds _ _ _ _ Hpos Ha) as (_ & _ & Hlow).
  split; [exact Hlow|].
  inversion Ha as [sz sb tr tb b Hroom Hs Ht Htr Hfl Hb Hflag Hv].
  apply read_ebml_size_bound in Hs. lia.
Qed.

(** A block whose size field, 7F FF, is the largest there is. *)
Lemma find_last_width_bound_witness : 2 <= 8194 <= 8194.
Proof.
  apply (find_last_width_bound 1 [xa3; x7f; xff; x81; x00; x00; x80; x00]
           None 0 8194).
  reflexivity.
Defined.

(** ** Exceptions of the locator *)

Lemma loop_body_returns (data : bytes) (l pos : Z) :
  l <= len data -> exists c, loop_body data l pos = Ret c.
Proof.
  intros Hl. unfold loop_body.
  destruct (rfind_spec data marker pos) as [E | [Hr Hn]].
  - rewrite E. cbn. eauto.
  - destruct (rfind data marker 0 pos =? -1); [eauto|].
    destruct (check_candidate_returns data l (rfind data marker 0 pos)
                ltac:(lia) Hl) as [r ->].
    cbn [bind]. destruct r; eauto.
Qed.

Lemma loop_no_exception (fuel : nat) (data : bytes) (l pos : Z) (e : exn) :
  l <= len data -> loop fuel data l pos <> Raise e.
Proof.
  intros Hl. revert pos. induction fuel as [|fuel IH]; intros pos; [discriminate|].
  cbn [loop]. destruct (loop_body_returns data l pos Hl) as [c ->].
  cbn [bind]. destruct c as [v | pos']; [discriminate | apply IH].
Qed.

(** X6.  With the search end left out, 0, or anywhere up to the buffer
    length (negative ends included), the locator raises nothing: every byte
    it reads is inside the buffer. *)
Theorem find_last_no_exception
  (fuel : nat) (data : bytes) (end_ : option Z) (e : exn) :
  end_or_len data end_ <= len data ->
  find_last_webm_simple_block fuel data end_ <> Raise e.
Proof.
  intros H. unfold find_last_webm_simple_block.
  apply loop_no_exception. exact H.
Qed.

(** The candidate at 1 has its two fields and its flag byte read before it
    is turned down. *)
Lemma find_last_no_exception_witness :
  find_last_webm_simple_block 2 [x00; xa3; x85; x81; x12; x34; x81; x00] None
  <> Raise IndexError.
Proof.
  apply (find_last_no_exception 2 [x00; xa3; x85; x81; x12; x34; x81; x00]
           None IndexError).
  cbn [end_or_len]. lia.
Defined.

Lemma rfind_below_last (data : bytes) (sub : byte) (k : nat) :
  nth_error data k = Some sub -> rfind_below data sub (S k) = Z.of_nat k.
Proof.
  intros H. cbn [rfind_below]. rewrite H.
  replace (Byte.eqb sub sub) with true; [reflexivity|].
  symmetry. apply Byte.byte_dec_lb. reflexivity.
Qed.

(** X7.  With a search end five or more past the buffer length, a buffer
    whose last byte is the marker makes line 104 read past the end: the
    locator raises IndexError in its first turn. *)
Theorem find_last_end_past_buffer
  (fuel : nat) (data : bytes) (k : nat) (end_ : Z) :
  length data = S k ->
  nth_error data k = Some marker ->
  len data + 5 <= end_ ->
  find_last_webm_simple_block (S fuel) data (Some end_) = Raise IndexError.
Proof.
  intros Hlen Hlast Hend.
  assert (Hl : len data = Z.of_nat (S k)) by (unfold len; rewrite Hlen; reflexivity).
  unfold find_last_webm_simple_block. cbn [end_or_len].
  replace (end_ =? 0) with false by (symmetry; apply Z.eqb_neq; lia).
  cbn [loop]. unfold loop_body.
  assert (Hr : rfind data marker 0 end_ = Z.of_nat k).
  { unfold rfind.
    assert (Hb : slice_index (len data) end_ = len data)
      by (unfold slice_index; destruct (end_ <? 0) eqn:E;
          [apply Z.ltb_lt in E; unfold len in *; lia | lia]).
    rewrite Hb, Hl, Nat2Z.id, (rfind_below_last _ _ _ Hlast).
    rewrite slice_index_id by lia.
    replace (0 <=? Z.of_nat k) with true by (symmetry; apply Z.leb_le; lia).
    reflexivity. }
  rewrite Hr.
  replace (Z.of_nat k =? -1) with false by (symmetry; apply Z.eqb_neq; lia).
  unfold check_candidate.
  replace (Z.of_nat k + 5 <? end_) with true by (symmetry; apply Z.ltb_lt; lia).
  unfold read_ebml_size at 1.
  rewrite getitem_out_of_range by (left; unfold len in Hl; lia).
  reflexivity.
Qed.

Lemma find_last_end_past_buffer_witness :
  find_last_webm_simple_block 1 [x00; xa3] (Some 7) = Raise IndexError.
Proof.
  apply (find_last_end_past_buffer 0 [x00; xa3] 1 7).
  - reflexivity.
  - reflexivity.
  - change (len [x00; xa3]) with 2. lia.
Defined.

(** ** Which positions the scan examines *)

(** X8.  On a buffer with no marker byte in it the locator returns -1 in
    its first turn, for every search end. *)
Theorem find_last_without_marker
  (fuel : nat) (data : bytes) (end_ : option Z) :
  ~ In marker data ->
  find_last_webm_simple_block (S fuel) data end_ = Ret (PyInt (-1)).
Proof.
  intros Hno. unfold find_last_webm_simple_block. cbn [loop]. unfold loop_body.
  destruct (rfind_spec data marker (end_or_len data end_)) as [E | [_ Hn]].
  - rewrite E. reflexivity.
  - exfalso. apply Hno. apply nth_error_In in Hn. exact Hn.
Qed.

Lemma find_last_without_marker_witness :
  find_last_webm_simple_block 1 [x1a; x45; xdf] (Some 40) = Ret (PyInt (-1)).
Proof.
  apply (find_last_without_marker 0 [x1a; x45; xdf] (Some 40)).
  intros [H | [H | [H | []]]]; discriminate H.
Defined.

(** X9.  Line 115 moves the cursor one below the candidate it turned down
    and [rfind] looks strictly below the cursor, so the byte just left of a
    rejected candidate is never examined: the next candidate is two or more
    positions to the left.  When the rejected candidate is at 1, the locator
    returns -1 without looking at the byte at 0. *)
Theorem rejected_candidate_hides_left_neighbour :
  (forall (data : bytes) (l pos pos' : Z),
      loop_body data l pos = Ret (Continue pos') ->
      0 <= pos' ->
      rfind data marker 0 pos' <= rfind data marker 0 pos - 2) /\
  (forall (fuel : nat) (data : bytes) (l pos : Z),
      loop_body data l pos = Ret (Continue 0) ->
      loop (S (S fuel)) data l pos = Ret (PyInt (-1))).
Proof.
  split.
  - intros data l pos pos' H Hpos'.
    apply (loop_body_inv _ _ _ _ _ eq_refl) in H. destruct H as (Hr & -> & _).
    pose proof (slice_index_range (len data) pos ltac:(unfold len; lia)).
    destruct (rfind_spec data marker (rfind data marker 0 pos - 1))
      as [E | [Hr' _]].
    + rewrite E. lia.
    + rewrite slice_index_id in Hr' by lia. lia.
  - intros fuel data l pos H.
    cbn [loop]. rewrite H. cbn [bind].
    unfold loop_body.
    assert (E : rfind data marker 0 0 = -1).
    { destruct (rfind_spec data marker 0) as [E | [Hr _]]; [exact E|].
      rewrite slice_index_id in Hr by (unfold len; lia). lia. }
    rewrite E. reflexivity.
Qed.

(** In A3 A3 81 00 00 80 00 the candidate at 1 is turned down; the bytes
    from 0 on would pass the checks as a block of 35 bytes, and are not
    looked at. *)
Lemma rejected_candidate_hides_left_neighbour_witness :
  rfind [x00; xa3; xa3; x81] marker 0 1
  <= rfind [x00; xa3; xa3; x81] marker 0 4 - 2 /\
  loop 2 [xa3; xa3; x81; x00; x00; x80; x00] 7 7 = Ret (PyInt (-1)).
Proof.
  split.
  - apply (proj1 rejected_candidate_hides_left_neighbour
             [x00; xa3; xa3; x81] 4 4 1).
    + reflexivity.
    + lia.
  - apply (proj2 rejected_candidate_hides_left_neighbour 0%nat
             [xa3; xa3; x81; x00; x00; x80; x00] 7 7).
    reflexivity.
Defined.

Lemma rfind_below_ge (data : bytes) (sub : byte) (k n : nat) :
  nth_error data k = Some sub -> (k < n)%nat ->
  Z.of_nat k <= rfind_below data sub n.
Proof.
  intros Hk. induction n as [|n IH]; intros Hlt; [lia|].
  cbn [rfind_below].
  destruct (Nat.eq_dec k n) as [-> | Hne].
  - rewrite Hk.
    replace (Byte.eqb sub sub) with true
      by (symmetry; apply Byte.byte_dec_lb; reflexivity).
    lia.
  - assert (Z.of_nat k <= rfind_below data sub n) by (apply IH; lia).
    destruct (nth_error data n) as [x|]; [|assumption].
    destruct (Byte.eqb x sub); [lia | assumption].
Qed.

(** When the only marker byte is the first byte, every search over a
    non-empty range finds position 0. *)
Lemma rfind_only_leading_marker (data : bytes) (pos : Z) :
  nth_error data 0 = Some marker ->
  (forall k, (1 <= k)%nat -> nth_error data k <> Some marker) ->
  1 <= slice_index (len data) pos ->
  rfind data marker 0 pos = 0.
Proof.
  intros H0 Hrest Hpos.
  assert (Hge : 0 <= rfind data marker 0 pos).
  { unfold rfind.
    pose proof (rfind_below_ge data marker 0
                  (Z.to_nat (slice_index (len data) pos)) H0 ltac:(lia)) as Hb.
    rewrite slice_index_id by (unfold len; lia).
    replace (0 <=? rfind_below data marker (Z.to_nat (slice_index (len data) pos)))
      with true by (symmetry; apply Z.leb_le; exact Hb).
    exact Hb. }
  destruct (rfind_spec data marker pos) as [E | [Hr Hn]]; [lia|].
  destruct (Z.eq_dec (rfind data marker 0 pos) 0) as [E | Hne]; [exact E|].
  exfalso. apply (Hrest (Z.to_nat (rfind data marker 0 pos))); [lia | exact Hn].
Qed.

(** X10.  When the first byte of a buffer of two bytes or more is its only
    marker byte and the checks turn it down, the locator never returns:
    after the candidate at 0 the cursor is -1, which [rfind] reads as the
    buffer length less one, and position 0 is found again. *)
Theorem find_last_loops_on_only_leading_marker
  (data : bytes) (end_ : option Z) :
  2 <= len data ->
  nth_error data 0 = Some marker ->
  (forall k, (1 <= k)%nat -> nth_error data k <> Some marker) ->
  check_candidate data (end_or_len data end_) 0 = Ret None ->
  1 <= slice_index (len data) (end_or_len data end_) ->
  forall fuel : nat, find_last_webm_simple_block fuel data end_ = NoFuel.
Proof.
  intros Hlen H0 Hrest Hcheck Hend.
  set (l := end_or_len data end_) in *.
  assert (Hturn : forall pos, 1 <= slice_index (len data) pos ->
                              loop_body data l pos = Ret (Continue (-1))).
  { intros pos Hpos. unfold loop_body.
    rewrite (rfind_only_leading_marker data pos H0 Hrest Hpos).
    change (0 =? -1) with false. cbv iota. rewrite Hcheck. reflexivity. }
  assert (Hcycle : forall fuel, loop fuel data l (-1) = NoFuel).
  { induction fuel as [|fuel IH]; [reflexivity|].
    cbn [loop]. rewrite Hturn; [exact IH|].
    unfold slice_index. change (-1 <? 0) with true. cbv iota. lia. }
  intros [|fuel]; [reflexivity|].
  unfold find_last_webm_simple_block. fold l.
  cbn [loop]. rewrite (Hturn l Hend). apply Hcycle.
Qed.

Lemma find_last_loops_on_only_leading_marker_witness :
  find_last_webm_simple_block 1000 [xa3; x85; x81; x00; x00; x01; x00] None
  = NoFuel.
Proof.
  apply (find_last_loops_on_only_leading_marker
           [xa3; x85; x81; x00; x00; x01; x00] None).
  - change (len [xa3; x85; x81; x00; x00; x01; x00]) with 7. lia.
  - reflexivity.
  - intros k Hk.
    do 7 (destruct k as [|k]; [try lia; discriminate|]).
    destruct k; discriminate.
  - reflexivity.
  - change (slice_index (len [xa3; x85; x81; x00; x00; x01; x00])
              (end_or_len [xa3; x85; x81; x00; x00; x01; x00] None)) with 7.
    lia.
Defined.

(** ** What the scanner selects *)

Lemma total_size_nonneg (packets : list Packet) : 0 <= total_size packets.
Proof.
  induction packets as [|p rest IH]; cbn [total_size]; lia.
Qed.

(** The scan from any state of the loop: either the accumulator was never
    reset, or it was last reset at a keyframe below the split point, and no
    keyframe after that one starts below the split point. *)
Lemma scan_packets_inv (packets : list Packet) (split_before : Z) :
  forall (acc : list Packet) (byte_ptr key_frame_start : Z)
         (selected : list Packet) (total start : Z),
    scan_packets packets split_before acc byte_ptr key_frame_start
    = (selected, total, start) ->
    total = byte_ptr + total_size packets /\
    ((selected = acc ++ packets /\ start = key_frame_start /\
      Forall (fun o => split_before <= o) (keyframe_offsets packets byte_ptr)) \/
     (exists before first rest,
         packets = before ++ first :: rest /\
         selected = first :: rest /\
         is_keyframe first = true /\
         start = byte_ptr + total_size before /\
         start < split_before /\
         Forall (fun o => split_before <= o)
           (keyframe_offsets rest (start + Z.of_N (size first))))).
Proof.
  induction packets as [|p rest IH]; intros acc b k selected total start H.
  - cbn in H. injection H as <- <- <-.
    split; [cbn; lia|]. left. rewrite app_nil_r. repeat split. constructor.
  - cbn [scan_packets] in H. apply IH in H. destruct H as [Htotal H].
    split; [cbn [total_size]; lia|].
    destruct H as [(Hsel & Hstart & Hall) | (before & first & rest' & Hp & Hsel & Hkey & Hstart & Hlt & Hall)].
    + destruct (is_keyframe p) eqn:Hkf; cbn [andb] in *.
      * destruct (b <? split_before) eqn:Hb.
        -- apply Z.ltb_lt in Hb. right. exists [], p, rest.
           cbn [app total_size] in *.
           repeat split; try assumption; try lia.
           subst start. exact Hall.
        -- apply Z.ltb_ge in Hb. left.
           rewrite <- app_assoc in Hsel. repeat split; try assumption.
           cbn [keyframe_offsets]. rewrite Hkf. constructor; assumption.
      * left. rewrite <- app_assoc in Hsel. repeat split; try assumption.
        cbn [keyframe_offsets]. rewrite Hkf. exact Hall.
    + right. exists (p :: before), first, rest'.
      subst rest. repeat split; try assumption.
      cbn [total_size]. lia.
Qed.

(** X11.  The scanner returns the total size of the packets, and either the
    start -1 with every packet selected, no keyframe starting below the
    split point, or the start of a keyframe below the split point with the
    packets from that keyframe on selected, no later keyframe starting below
    the split point; what it leaves out is what comes before that
    keyframe. *)
Theorem select_packets_from_last_keyframe
  (packets selected : list Packet) (split_before total start : Z) :
  select_packets packets split_before = (selected, total, start) ->
  total = total_size packets /\
  ((start = -1 /\ selected = packets /\
    Forall (fun o => split_before <= o) (keyframe_offsets packets 0)) \/
   (exists before first rest,
       packets = before ++ first :: rest /\
       selected = first :: rest /\
       is_keyframe first = true /\
       start = total_size before /\
       0 <= start < split_before /\
       Forall (fun o => split_before <= o)
         (keyframe_offsets rest (start + Z.of_N (size first))))).
Proof.
  unfold select_packets. intros H. apply scan_packets_inv in H.
  destruct H as [Htotal H]. split; [lia|].
  destruct H as [(Hsel & Hstart & Hall) | (before & first & rest & Hp & Hsel & Hkey & Hstart & Hlt & Hall)].
  - left. auto.
  - right. exists before, first, rest. repeat split; try assumption; try lia.
    pose proof (total_size_nonneg before). lia.
Qed.

(** Keyframes at 0 and 50, split before 60: the second and third packets
    are selected and the start is 50. *)
Lemma select_packets_from_last_keyframe_witness :
  140 = total_size [mkPacket 50 true (Some 0) (Some 0);
                    mkPacket 40 true (Some 20) (Some 20);
                    mkPacket 50 false (Some 40) (Some 40)] /\
  ((50 = -1 /\
    [mkPacket 40 true (Some 20) (Some 20); mkPacket 50 false (Some 40) (Some 40)]
    = [mkPacket 50 true (Some 0) (Some 0);
       mkPacket 40 true (Some 20) (Some 20);
       mkPacket 50 false (Some 40) (Some 40)] /\
    Forall (fun o => 60 <= o)
      (keyframe_offsets [mkPacket 50 true (Some 0) (Some 0);
                         mkPacket 40 true (Some 20) (Some 20);
                         mkPacket 50 false (Some 40) (Some 40)] 0)) \/
   (exists before first rest,
       [mkPacket 50 true (Some 0) (Some 0);
        mkPacket 40 true (Some 20) (Some 20);
        mkPacket 50 false (Some 40) (Some 40)] = before ++ first :: rest /\
       [mkPacket 40 true (Some 20) (Some 20); mkPacket 50 false (Some 40) (Some 40)]
       = first :: rest /\
       is_keyframe first = true /\
       50 = total_size before /\
       0 <= 50 < 60 /\
       Forall (fun o => 60 <= o)
         (keyframe_offsets rest (50 + Z.of_N (size first))))).
Proof.
  apply (select_packets_from_last_keyframe
           [mkPacket 50 true (Some 0) (Some 0);
            mkPacket 40 true (Some 20) (Some 20);
            mkPacket 50 false (Some 40) (Some 40)]
           [mkPacket 40 true (Some 20) (Some 20);
            mkPacket 50 false (Some 40) (Some 40)] 60 140 50).
  reflexivity.
Defined.

Lemma scan_packets_same_split (packets : list Packet) (sb1 sb2 : Z) :
  sb1 <= sb2 ->
  forall (acc : list Packet) (byte_ptr key_frame_start : Z),
    Forall (fun o => o < sb1 \/ sb2 <= o) (keyframe_offsets packets byte_ptr) ->
    scan_packets packets sb1 acc byte_ptr key_frame_start
    = scan_packets packets sb2 acc byte_ptr key_frame_start.
Proof.
  intros Hsb. induction packets as [|p rest IH]; intros acc b k H; [reflexivity|].
  cbn [scan_packets keyframe_offsets] in *.
  apply Forall_app in H. destruct H as [Hp Hrest].
  assert (E : is_keyframe p && (b <? sb1) = is_keyframe p && (b <? sb2)).
  { destruct (is_keyframe p); [|reflexivity]. cbn [andb].
    inversion Hp as [|? ? Hb _]; subst.
    destruct (b <? sb1) eqn:E1; destruct (b <? sb2) eqn:E2;
      try reflexivity;
      try apply Z.ltb_lt in E1; try apply Z.ltb_ge in E1;
      try apply Z.ltb_lt in E2; try apply Z.ltb_ge in E2; lia. }
  rewrite E. apply IH. exact Hrest.
Qed.

(** X12.  The split point matters only through the keyframes below it: two
    split points with no keyframe starting from the lower one up to the
    higher one select the same packets, with the same start. *)
Theorem select_packets_same_between_keyframes
  (packets : list Packet) (split_before1 split_before2 : Z) :
  split_before1 <= split_before2 ->
  Forall (fun o => o < split_before1 \/ split_before2 <= o)
    (keyframe_offsets packets 0) ->
  select_packets packets split_before1 = select_packets packets split_before2.
Proof.
  intros Hsb H. unfold select_packets.
  apply scan_packets_same_split; assumption.
Qed.

Lemma select_packets_same_between_keyframes_witness :
  select_packets [mkPacket 50 true (Some 0) (Some 0);
                  mkPacket 40 true (Some 20) (Some 20);
                  mkPacket 50 false (Some 40) (Some 40)] 51
  = select_packets [mkPacket 50 true (Some 0) (Some 0);
                    mkPacket 40 true (Some 20) (Some 20);
                    mkPacket 50 false (Some 40) (Some 40)] 5000.
Proof.
  apply (select_packets_same_between_keyframes
           [mkPacket 50 true (Some 0) (Some 0);
            mkPacket 40 true (Some 20) (Some 20);
            mkPacket 50 false (Some 40) (Some 40)] 51 5000).
  - lia.
  - cbn. apply Forall_cons; [left; lia|].
    apply Forall_cons; [left; lia | apply Forall_nil].
Defined.

(** ** What writing the packets keeps, and when it fails *)

Lemma set_timestamp_cases (v : Z) :
  (v < int64_min \/ int64_max < v) /\ set_timestamp v = Raise OverflowError \/
  v = int64_min /\ set_timestamp v = Ret None \/
  fits_timestamp v /\ set_timestamp v = Ret (Some v).
Proof.
  unfold set_timestamp, fits_timestamp.
  destruct (v <? int64_min) eqn:E1; cbn [orb].
  - apply Z.ltb_lt in E1. left. auto.
  - apply Z.ltb_ge in E1. destruct (int64_max <? v) eqn:E2.
    + apply Z.ltb_lt in E2. left. auto.
    + apply Z.ltb_ge in E2. destruct (v =? int64_min) eqn:E3.
      * apply Z.eqb_eq in E3. right. left. auto.
      * apply Z.eqb_neq in E3. right. right. split; [lia | reflexivity].
Qed.




(** Lines 65-67 on one packet return the packet to write, or stop on a
    subtraction with [None], or on an assignment past the [int64_t]. *)
Lemma adjust_packet_outcomes (adjust_timestamps : bool) (first p : Packet) :
  (exists q, adjust_packet adjust_timestamps (dts first) (pts first) p = Ret q) \/
  (adjust_timestamps = true /\ unrebasable first p /\
   adjust_packet adjust_timestamps (dts first) (pts first) p = Raise TypeError) \/
  (adjust_timestamps = true /\ overflowing first p /\
   adjust_packet adjust_timestamps (dts first) (pts first) p
   = Raise OverflowError).
Proof.
  unfold adjust_packet, unrebasable, overflowing.
  destruct adjust_timestamps; cbn [andb]; [|left; eauto].
  destruct (dts p) as [d|]; cbn [is_some]; [|left; eauto].
  destruct (dts first) as [d0|]; cbn [py_sub bind];
    [|right; left; repeat split; [discriminate | left; reflexivity]].
  destruct (set_timestamp_cases (d - d0)) as [[Hov E] | [[_ E] | [_ E]]];
    rewrite E; cbn [bind].
  - right. right. repeat split. left. exists d, d0. auto.
  - destruct (pts p) as [t|]; cbn [py_sub bind];
      [|right; left; repeat split; [discriminate | right; right; reflexivity]].
    destruct (pts first) as [t0|]; cbn [py_sub bind];
      [|right; left; repeat split; [discriminate | right; left; reflexivity]].
    destruct (set_timestamp_cases (t - t0)) as [[Hov E'] | [[_ E'] | [_ E']]];
      rewrite E'; cbn [bind]; [|left; eauto | left; eauto].
    right. right. repeat split. right. split; [discriminate|].
    exists t, t0. auto.
  - destruct (pts p) as [t|]; cbn [py_sub bind];
      [|right; left; repeat split; [discriminate | right; right; reflexivity]].
    destruct (pts first) as [t0|]; cbn [py_sub bind];
      [|right; left; repeat split; [discriminate | right; left; reflexivity]].
    destruct (set_timestamp_cases (t - t0)) as [[Hov E'] | [[_ E'] | [_ E']]];
      rewrite E'; cbn [bind]; [|left; eauto | left; eauto].
    right. right. repeat split. right. split; [discriminate|].
    exists t, t0. auto.
Qed.

(** The loop of lines 64-68 from any state of the output: it gets through
    when every packet is adjusted and muxed, and otherwise stops at the
    first packet that is not. *)
Lemma write_loop_outcomes (Output : Type)
  (av_mux : Output -> Packet -> option Output) (adjust_timestamps : bool)
  (first : Packet) (packets : list Packet) :
  forall out : Output,
    (exists written out',
        adjust_all adjust_timestamps (dts first) (pts first) packets
        = Ret written /\
        mux_each av_mux out written = Some out' /\
        write_loop av_mux adjust_timestamps (dts first) (pts first) packets out
        = Ret out') \/
    (adjust_timestamps = true /\ Exists (unrebasable first) packets /\
     write_loop av_mux adjust_timestamps (dts first) (pts first) packets out
     = Raise TypeError) \/
    (adjust_timestamps = true /\ Exists (overflowing first) packets /\
     write_loop av_mux adjust_timestamps (dts first) (pts first) packets out
     = Raise OverflowError) \/
    ((exists out_k q, av_mux out_k q = None) /\
     write_loop av_mux adjust_timestamps (dts first) (pts first) packets out
     = Raise AvError).
Proof.
  induction packets as [|p rest IH]; intros out.
  - left. exists [], out. repeat split.
  - cbn [write_loop adjust_all].
    destruct (adjust_packet_outcomes adjust_timestamps first p)
      as [[q ->] | [(Ha & Hbad & ->) | (Ha & Hbad & ->)]]; cbn [bind].
    + destruct (av_mux out q) as [out1|] eqn:Hm.
      * destruct (IH out1)
          as [(ws & out' & -> & Hmux & ->) | [(Ha & Hbad & ->) | [(Ha & Hbad & ->) | (Hfail & ->)]]];
          cbn [bind].
        -- left. exists (q :: ws), out'. cbn [mux_each]. rewrite Hm. auto.
        -- right. left. auto using Exists_cons_tl.
        -- right. right. left. auto using Exists_cons_tl.
        -- right. right. right. auto.
      * right. right. right. eauto.
    + right. left. auto using Exists_cons_hd.
    + right. right. left. auto using Exists_cons_hd.
Qed.

Lemma write_loop_through (Output : Type)
  (av_mux : Output -> Packet -> option Output) (adjust_timestamps : bool)
  (dts_start pts_start : option Z) (packets : list Packet) :
  forall (written : list Packet) (out out' : Output),
    adjust_all adjust_timestamps dts_start pts_start packets = Ret written ->
    mux_each av_mux out written = Some out' ->
    write_loop av_mux adjust_timestamps dts_start pts_start packets out
    = Ret out'.
Proof.
  induction packets as [|p rest IH]; intros written out out' Ha Hm.
  - injection Ha as <-. cbn in Hm. injection Hm as <-. reflexivity.
  - cbn [adjust_all write_loop] in *.
    destruct (adjust_packet adjust_timestamps dts_start pts_start p) as [q| |];
      cbn [bind] in *; try discriminate.
    destruct (adjust_all adjust_timestamps dts_start pts_start rest)
      as [ws| |] eqn:Hws; cbn [bind] in Ha; try discriminate.
    injection Ha as <-. cbn [mux_each] in Hm.
    destruct (av_mux out q) as [out1|]; [|discriminate].
    apply (IH ws out1 out' eq_refl Hm).
Qed.

(** X14.  Lines 62-68, the adjusting with the muxing inside the loop, end
    in one of five ways.  With no packet selected line 62 raises
    IndexError, and only then.  Otherwise either every packet is adjusted
    and muxed, in order; or a subtraction raises TypeError, which needs
    [adjust_timestamps] and a packet that has a [dts] while the first
    packet lacks its [dts] or its [pts] or the packet its [pts]; or an
    assignment raises OverflowError, which needs [adjust_timestamps] and a
    packet whose [dts] or [pts], less the first packet's, is outside the
    [int64_t]; or a call of [mux] raises.  When the adjusting alone gets
    through and every call of [mux] does, the loop gets through. *)
Theorem write_and_mux_outcomes (Output : Type)
  (av_mux : Output -> Packet -> option Output) (adjust_timestamps : bool)
  (selected : list Packet) (out : Output) :
  ((selected = [] /\
    write_and_mux av_mux adjust_timestamps selected out = Raise IndexError) \/
   (exists first rest,
       selected = first :: rest /\
       ((exists written out',
            write_packets adjust_timestamps selected = Ret written /\
            mux_each av_mux out written = Some out' /\
            write_and_mux av_mux adjust_timestamps selected out = Ret out') \/
        (adjust_timestamps = true /\ Exists (unrebasable first) selected /\
         write_and_mux av_mux adjust_timestamps selected out
         = Raise TypeError) \/
        (adjust_timestamps = true /\ Exists (overflowing first) selected /\
         write_and_mux av_mux adjust_timestamps selected out
         = Raise OverflowError) \/
        ((exists out_k q, av_mux out_k q = None) /\
         write_and_mux av_mux adjust_timestamps selected out
         = Raise AvError)))) /\
  (forall written out',
      write_packets adjust_timestamps selected = Ret written ->
      mux_each av_mux out written = Some out' ->
      write_and_mux av_mux adjust_timestamps selected out = Ret out').
Proof.
  split.
  - destruct selected as [|first rest]; [left; split; reflexivity|].
    right. exists first, rest. split; [reflexivity|].
    unfold write_and_mux, write_packets.
    change (getitem (first :: rest) 0) with (Ret first). cbn [bind].
    apply write_loop_outcomes.
  - intros written out' Hw Hm. unfold write_and_mux, write_packets in *.
    destruct (getitem selected 0) as [first| |]; cbn [bind] in *;
      try discriminate.
    apply (write_loop_through _ _ _ _ _ _ _ _ _ Hw Hm).
Qed.

(** A packet and the flush packet after it, not adjusted: both are
    muxed. *)
Lemma write_and_mux_outcomes_witness :
  write_and_mux fixed_mux false
    [mkPacket 40 true (Some 20) (Some 20); mkPacket 0 false None None] tt
  = Ret tt.
Proof.
  apply (proj2 (write_and_mux_outcomes unit fixed_mux false
                  [mkPacket 40 true (Some 20) (Some 20);
                   mkPacket 0 false None None] tt)
           [mkPacket 40 true (Some 20) (Some 20); mkPacket 0 false None None]
           tt).
  - reflexivity.
  - reflexivity.
Defined.

(** ** The cut of the input buffer *)

Lemma slice_to_firstn {A : Type} (data : list A) (n : Z) :
  0 <= n <= Z.of_nat (length data) ->
  slice_to data n = firstn (Z.to_nat n) data.
Proof.
  intros H. unfold slice_to, slice.
  rewrite !slice_index_id by lia.
  rewrite Z.sub_0_r. reflexivity.
Qed.

Lemma slice_from_skipn {A : Type} (data : list A) (n : Z) :
  0 <= n <= Z.of_nat (length data) ->
  slice_from data n = skipn (Z.to_nat n) data.
Proof.
  intros H. unfold slice_from, slice.
  rewrite !slice_index_id by lia.
  apply firstn_all2. rewrite length_skipn. lia.
Qed.

(** X15.  Lines 26-31 cut the buffer in two parts that together are the
    buffer.  When the last located block ends exactly at the end of the
    buffer, the first part is the whole buffer and the tail is empty;
    otherwise the first part stops before that block, and the tail begins
    with its marker byte. *)
Theorem split_cut_keeps_every_byte
  (fuel : nat) (audio : bytes) (last_start size : Z) :
  find_last_webm_simple_block fuel audio None
  = Ret (PyTuple2 last_start size) ->
  slice_to audio (cut_point audio last_start size)
  ++ slice_from audio (cut_point audio last_start size) = audio /\
  (len audio = last_start + size ->
   slice_to audio (cut_point audio last_start size) = audio /\
   slice_from audio (cut_point audio last_start size) = []) /\
  (len audio <> last_start + size ->
   len (slice_to audio (cut_point audio last_start size)) = last_start /\
   exists rest,
     slice_from audio (cut_point audio last_start size) = marker :: rest).
Proof.
  intros H. apply find_last_inv in H. destruct H as (Hpos & Hn & Ha).
  pose proof (accepted_bounds _ _ _ _ Hpos Ha) as (Hlen & _ & Htot).
  unfold cut_point, len in *.
  destruct (Z.of_nat (length audio) =? last_start + size) eqn:E.
  - apply Z.eqb_eq in E.
    rewrite slice_to_firstn, slice_from_skipn by lia.
    rewrite <- E, Nat2Z.id, firstn_all, skipn_all.
    split; [apply app_nil_r|]. split; [auto | intros Hne; contradiction].
  - apply Z.eqb_neq in E.
    rewrite slice_to_firstn, slice_from_skipn by lia.
    split; [apply firstn_skipn|]. split; [intros Heq; contradiction|].
    intros _. split.
    + rewrite length_firstn. lia.
    + exists (skipn (S (Z.to_nat last_start)) audio).
      apply skipn_nth_error. exact Hn.
Qed.

(** A complete block followed by the first four bytes of the next one. *)
Lemma split_cut_keeps_every_byte_witness :
  slice_to [xa3; x85; x81; x12; x34; x80; x00; xa3; x85; x81; x12]
    (cut_point [xa3; x85; x81; x12; x34; x80; x00; xa3; x85; x81; x12] 0 7)
  ++ slice_from [xa3; x85; x81; x12; x34; x80; x00; xa3; x85; x81; x12]
       (cut_point [xa3; x85; x81; x12; x34; x80; x00; xa3; x85; x81; x12] 0 7)
  = [xa3; x85; x81; x12; x34; x80; x00; xa3; x85; x81; x12] /\
  (len [xa3; x85; x81; x12; x34; x80; x00; xa3; x85; x81; x12] = 0 + 7 ->
   slice_to [xa3; x85; x81; x12; x34; x80; x00; xa3; x85; x81; x12]
     (cut_point [xa3; x85; x81; x12; x34; x80; x00; xa3; x85; x81; x12] 0 7)
   = [xa3; x85; x81; x12; x34; x80; x00; xa3; x85; x81; x12] /\
   slice_from [xa3; x85; x81; x12; x34; x80; x00; xa3; x85; x81; x12]
     (cut_point [xa3; x85; x81; x12; x34; x80; x00; xa3; x85; x81; x12] 0 7)
   = []) /\
  (len [xa3; x85; x81; x12; x34; x80; x00; xa3; x85; x81; x12] <> 0 + 7 ->
   len (slice_to [xa3; x85; x81; x12; x34; x80; x00; xa3; x85; x81; x12]
          (cut_point [xa3; x85; x81; x12; x34; x80; x00; xa3; x85; x81; x12] 0 7))
   = 0 /\
   exists rest,
     slice_from [xa3; x85; x81; x12; x34; x80; x00; xa3; x85; x81; x12]
       (cut_point [xa3; x85; x81; x12; x34; x80; x00; xa3; x85; x81; x12] 0 7)
     = marker :: rest).
Proof.
  apply (split_cut_keeps_every_byte 3
           [xa3; x85; x81; x12; x34; x80; x00; xa3; x85; x81; x12] 0 7).
  reflexivity.
Defined.

(** ** The steps of the split *)

(** The three ways lines 72-78 end. *)
Lemma strip_and_stitch_trace (fuel : nat) (raw extra_bytes : bytes)
  (r : outcome bytes) :
  strip_and_stitch fuel raw extra_bytes = r ->
  (find_last_webm_simple_block fuel raw None = NoFuel /\ r = NoFuel) \/
  (exists n, find_last_webm_simple_block fuel raw None = Ret (PyInt n) /\
             r = Raise TypeError) \/
  (exists pos size,
      find_last_webm_simple_block fuel raw None = Ret (PyTuple2 pos size) /\
      ((pos + size <= len raw /\
        r = Ret (slice_to raw (pos + size) ++ extra_bytes)) \/
       (len raw < pos + size /\ r = Raise AssertionError))).
Proof.
  unfold strip_and_stitch. intros <-.
  pose proof (fun e => loop_no_exception fuel raw (len raw) (len raw) e
                         (Z.le_refl _)) as Hno.
  change (loop fuel raw (len raw) (len raw))
    with (find_last_webm_simple_block fuel raw None) in Hno.
  destruct (find_last_webm_simple_block fuel raw None) as [[n | pos size] | e |];
    cbn [bind unpack2].
  - right. left. eauto.
  - right. right. exists pos, size. split; [reflexivity|].
    destruct (len raw >=? pos + size) eqn:E.
    + left. rewrite Z.geb_leb in E. apply Z.leb_le in E. auto.
    + right. rewrite Z.geb_leb in E. apply Z.leb_gt in E. auto.
  - exfalso. apply (Hno e). reflexivity.
  - left. auto.
Qed.

(** The ways lines 56-72 end, and what goes on to the stripping of the
    trailer when they pass. *)
Lemma remux_trace (Stream Output : Type)
  (av_open_output : Stream -> option Output)
  (av_mux : Output -> Packet -> option Output)
  (av_close : Output -> option bytes) (fuel : nat)
  (audio_stream : Stream) (selected : list Packet) (adjust_timestamps : bool)
  (extra_bytes : bytes) (r : outcome bytes) :
  remux av_open_output av_mux av_close fuel audio_stream selected
    adjust_timestamps extra_bytes = r ->
  (av_open_output audio_stream = None /\ r = Raise AvError) \/
  (exists out,
      av_open_output audio_stream = Some out /\
      ((selected = [] /\ r = Raise IndexError) \/
       (selected <> [] /\
        (r = Raise TypeError \/ r = Raise OverflowError \/ r = Raise AvError)) \/
       (exists written raw,
           write_packets adjust_timestamps selected = Ret written /\
           muxed av_open_output av_mux av_close audio_stream written
           = Some raw /\
           strip_and_stitch fuel raw extra_bytes = r))).
Proof.
  unfold remux. intros <-.
  destruct (av_open_output audio_stream) as [out|] eqn:Hopen;
    [|left; split; reflexivity].
  right. exists out. split; [reflexivity|].
  destruct selected as [|first rest]; [left; split; reflexivity|].
  right. unfold write_and_mux.
  change (getitem (first :: rest) 0) with (Ret first). cbn [bind].
  destruct (write_loop_outcomes Output av_mux adjust_timestamps first
              (first :: rest) out)
    as [(ws & out' & Hws & Hmux & ->) | [(_ & _ & ->) | [(_ & _ & ->) | (_ & ->)]]];
    cbn [bind].
  - destruct (av_close out') as [raw|] eqn:Hclose.
    + right. exists ws, raw. split.
      * unfold write_packets.
        change (getitem (first :: rest) 0) with (Ret first). exact Hws.
      * split; [|reflexivity].
        unfold muxed. rewrite Hopen, Hmux. exact Hclose.
    + left. split; [discriminate | auto].
  - left. split; [discriminate | auto].
  - left. split; [discriminate | auto].
  - left. split; [discriminate | auto].
Qed.

(** When the output side goes through for the packets as adjusted, the
    remux is the stripping of what it wrote. *)
Lemma remux_through (Stream Output : Type)
  (av_open_output : Stream -> option Output)
  (av_mux : Output -> Packet -> option Output)
  (av_close : Output -> option bytes) (fuel : nat)
  (audio_stream : Stream) (selected written : list Packet)
  (adjust_timestamps : bool) (raw extra_bytes : bytes) :
  write_packets adjust_timestamps selected = Ret written ->
  muxed av_open_output av_mux av_close audio_stream written = Some raw ->
  remux av_open_output av_mux av_close fuel audio_stream selected
    adjust_timestamps extra_bytes
  = strip_and_stitch fuel raw extra_bytes.
Proof.
  intros Hw Hm. unfold remux. unfold muxed in Hm.
  destruct (av_open_output audio_stream) as [out|]; [|discriminate].
  destruct (mux_each av_mux out written) as [out'|] eqn:Hmux; [|discriminate].
  unfold write_and_mux. unfold write_packets in Hw.
  destruct (getitem selected 0) as [first| |]; cbn [bind] in *;
    try discriminate.
  rewrite (write_loop_through _ _ _ _ _ _ _ _ _ Hw Hmux). cbn [bind].
  rewrite Hm. reflexivity.
Qed.

(** The ways lines 26-39 end, and what is handed on when they pass. *)
Lemma split_trace (Stream Output : Type) (av_demux : bytes -> demuxed Stream)
  (av_open_output : Stream -> option Output)
  (av_mux : Output -> Packet -> option Output)
  (av_close : Output -> option bytes) (fuel : nat)
  (audio : bytes) (split_before : Z) (adjust_timestamps : bool)
  (r : outcome bytes) :
  split_webm_buffer av_demux av_open_output av_mux av_close fuel audio
    split_before adjust_timestamps = r ->
  (find_last_webm_simple_block fuel audio None = NoFuel /\ r = NoFuel) \/
  (exists n, find_last_webm_simple_block fuel audio None = Ret (PyInt n) /\
             r = Raise TypeError) \/
  (exists last_start size,
      find_last_webm_simple_block fuel audio None
      = Ret (PyTuple2 last_start size) /\
      ((av_demux (slice_to audio (cut_point audio last_start size)) = OpenFailed /\
        r = Raise AvError) \/
       (av_demux (slice_to audio (cut_point audio last_start size))
        = NoAudioStream /\ r = Raise ValueError) \/
       (exists audio_stream packets,
           av_demux (slice_to audio (cut_point audio last_start size))
           = AudioStream audio_stream packets /\
           remux av_open_output av_mux av_close fuel audio_stream
             (fst (fst (select_packets packets split_before)))
             adjust_timestamps
             (slice_from audio (cut_point audio last_start size)) = r))).
Proof.
  unfold split_webm_buffer. intros <-.
  pose proof (fun e => loop_no_exception fuel audio (len audio) (len audio) e
                         (Z.le_refl _)) as Hno.
  change (loop fuel audio (len audio) (len audio))
    with (find_last_webm_simple_block fuel audio None) in Hno.
  destruct (find_last_webm_simple_block fuel audio None)
    as [[n | last_start size] | e |]; cbn [bind unpack2].
  - right. left. eauto.
  - right. right. exists last_start, size. split; [reflexivity|].
    fold (cut_point audio last_start size).
    destruct (av_demux (slice_to audio (cut_point audio last_start size)))
      as [| |audio_stream packets].
    + left. auto.
    + right. left. auto.
    + right. right. exists audio_stream, packets. split; [reflexivity|].
      destruct (select_packets packets split_before) as [[sel t] k].
      reflexivity.
  - exfalso. apply (Hno e). reflexivity.
  - left. auto.
Qed.

(** What the split is once the block is located and the audio stream
    found. *)
Lemma split_after_demux (Stream Output : Type)
  (av_demux : bytes -> demuxed Stream)
  (av_open_output : Stream -> option Output)
  (av_mux : Output -> Packet -> option Output)
  (av_close : Output -> option bytes) (fuel : nat)
  (audio : bytes) (split_before : Z) (adjust_timestamps : bool)
  (last_start size : Z) (audio_stream : Stream) (packets : list Packet) :
  find_last_webm_simple_block fuel audio None = Ret (PyTuple2 last_start size) ->
  av_demux (slice_to audio (cut_point audio last_start size))
  = AudioStream audio_stream packets ->
  split_webm_buffer av_demux av_open_output av_mux av_close fuel audio
    split_before adjust_timestamps
  = remux av_open_output av_mux av_close fuel audio_stream
      (fst (fst (select_packets packets split_before))) adjust_timestamps
      (slice_from audio (cut_point audio last_start size)).
Proof.
  intros Hloc Hd. unfold split_webm_buffer. rewrite Hloc. cbn [bind unpack2].
  fold (cut_point audio last_start size). rewrite Hd.
  destruct (select_packets packets split_before) as [[sel t] k]. reflexivity.
Qed.

(** The scanner selects nothing only when there is no packet. *)
Lemma select_packets_nil (packets : list Packet) (split_before : Z) :
  fst (fst (select_packets packets split_before)) = [] -> packets = [].
Proof.
  unfold select_packets.
  destruct (scan_packets packets split_before [] 0 (-1)) as [[sel t] k] eqn:E.
  cbn [fst]. intros ->.
  apply scan_packets_inv in E.
  destruct E as [_ [(Hsel & _) | (before & first & rest & _ & Hsel & _)]].
  - cbn [app] in Hsel. symmetry. exact Hsel.
  - discriminate.
Qed.

(** X16.  When the split returns, its result is the muxed bytes up to the
    end of the last block located in them, nothing after that block being
    kept, followed by the tail cut off the input: its length is the end of
    that block plus the length of the tail, and the marker byte of that
    block is in it at the position where the muxed bytes had it. *)
Theorem split_output_shape (Stream Output : Type)
  (av_demux : bytes -> demuxed Stream)
  (av_open_output : Stream -> option Output)
  (av_mux : Output -> Packet -> option Output)
  (av_close : Output -> option bytes) (fuel : nat)
  (audio : bytes) (split_before : Z) (adjust_timestamps : bool) (out : bytes) :
  split_webm_buffer av_demux av_open_output av_mux av_close fuel audio
    split_before adjust_timestamps = Ret out ->
  exists last_start size audio_stream packets written raw pos size',
    find_last_webm_simple_block fuel audio None
    = Ret (PyTuple2 last_start size) /\
    av_demux (slice_to audio (cut_point audio last_start size))
    = AudioStream audio_stream packets /\
    write_packets adjust_timestamps
      (fst (fst (select_packets packets split_before))) = Ret written /\
    muxed av_open_output av_mux av_close audio_stream written = Some raw /\
    find_last_webm_simple_block fuel raw None = Ret (PyTuple2 pos size') /\
    pos + size' <= len raw /\
    out = slice_to raw (pos + size')
          ++ slice_from audio (cut_point audio last_start size) /\
    len out = pos + size' + (len audio - cut_point audio last_start size) /\
    getitem out pos = Ret marker.
Proof.
  intros H. apply split_trace in H.
  destruct H as [[_ H] | [(n & _ & H) | (p & s & Hloc & H)]]; try discriminate.
  destruct H as [[_ H] | [[_ H] | (st & packets & Hdemux & H)]];
    try discriminate.
  apply remux_trace in H.
  destruct H as [[_ H] | (o & _ & [[_ H] | [(_ & [H | [H | H]]) | (ws & raw & Hw & Hm & H)]])];
    try discriminate.
  apply strip_and_stitch_trace in H.
  destruct H as [[_ H] | [(n & _ & H) | (pos & size' & Hraw & H)]];
    try discriminate.
  destruct H as [[Hfull H] | [_ H]]; [|discriminate].
  injection H as ->.
  exists p, s, st, packets, ws, raw, pos, size'.
  repeat (split; [assumption || reflexivity|]).
  pose proof Hloc as Hloc'. apply find_last_inv in Hloc'.
  destruct Hloc' as (Hp & _ & Hacc).
  pose proof (accepted_bounds _ _ _ _ Hp Hacc) as (Hplen & _ & Hs).
  pose proof Hraw as Hraw'. apply find_last_inv in Hraw'.
  destruct Hraw' as (Hpos & Hn & Hacc').
  pose proof (accepted_bounds _ _ _ _ Hpos Hacc') as (_ & _ & Hs').
  assert (Hcut : 0 <= cut_point audio p s <= len audio)
    by (unfold cut_point; destruct (len audio =? p + s) eqn:E;
        [apply Z.eqb_eq in E; lia | lia]).
  unfold len in *.
  rewrite slice_to_firstn by lia. rewrite slice_from_skipn by exact Hcut.
  split.
  - rewrite length_app, length_firstn, length_skipn. lia.
  - apply getitem_nth; [exact Hpos|].
    rewrite nth_error_app1 by (rewrite length_firstn; lia).
    rewrite nth_error_firstn.
    replace (Z.to_nat pos <? Z.to_nat (pos + size'))%nat with true
      by (symmetry; apply Nat.ltb_lt; lia).
    exact Hn.
Qed.

(** The muxer writes a block and a trailer of four bytes; the input is a
    block and the first bytes of the next. *)
Lemma split_output_shape_witness :
  exists last_start size audio_stream packets written raw pos size',
    find_last_webm_simple_block 3
      [xa3; x85; x81; x12; x34; x80; x00; xa3; x85] None
    = Ret (PyTuple2 last_start size) /\
    fixed_demux [mkPacket 7 true (Some 0) (Some 0)]
      (slice_to [xa3; x85; x81; x12; x34; x80; x00; xa3; x85]
         (cut_point [xa3; x85; x81; x12; x34; x80; x00; xa3; x85]
            last_start size))
    = AudioStream audio_stream packets /\
    write_packets false (fst (fst (select_packets packets 0))) = Ret written /\
    muxed fixed_open fixed_mux
      (fixed_close [xa3; x85; x81; x00; x00; x80; x00; x1c; x53; xbb; x6b])
      audio_stream written = Some raw /\
    find_last_webm_simple_block 3 raw None = Ret (PyTuple2 pos size') /\
    pos + size' <= len raw /\
    [xa3; x85; x81; x00; x00; x80; x00;
     xa3; x85; x81; x12; x34; x80; x00; xa3; x85]
    = slice_to raw (pos + size')
      ++ slice_from [xa3; x85; x81; x12; x34; x80; x00; xa3; x85]
           (cut_point [xa3; x85; x81; x12; x34; x80; x00; xa3; x85]
              last_start size) /\
    len [xa3; x85; x81; x00; x00; x80; x00;
         xa3; x85; x81; x12; x34; x80; x00; xa3; x85]
    = pos + size'
      + (len [xa3; x85; x81; x12; x34; x80; x00; xa3; x85]
         - cut_point [xa3; x85; x81; x12; x34; x80; x00; xa3; x85]
             last_start size) /\
    getitem [xa3; x85; x81; x00; x00; x80; x00;
             xa3; x85; x81; x12; x34; x80; x00; xa3; x85] pos = Ret marker.
Proof.
  apply (split_output_shape unit unit
           (fixed_demux [mkPacket 7 true (Some 0) (Some 0)])
           fixed_open fixed_mux
           (fixed_close [xa3; x85; x81; x00; x00; x80; x00; x1c; x53; xbb; x6b])
           3 [xa3; x85; x81; x12; x34; x80; x00; xa3; x85] 0 false).
  reflexivity.
Defined.

(** ** What the exceptions of the split tell *)

(** X17.  When a block was located in the input and the part before the
    cut has no audio stream, the split raises the ValueError of line 39.
    The split raises IndexError exactly when a block was located, the audio
    stream of that part yields no packet at all, and the output container
    opened with the stream added: line 62 comes after lines 57-59. *)
Theorem split_value_and_index_errors (Stream Output : Type)
  (av_demux : bytes -> demuxed Stream)
  (av_open_output : Stream -> option Output)
  (av_mux : Output -> Packet -> option Output)
  (av_close : Output -> option bytes) (fuel : nat)
  (audio : bytes) (split_before : Z) (adjust_timestamps : bool) :
  ((exists last_start size,
       find_last_webm_simple_block fuel audio None
       = Ret (PyTuple2 last_start size) /\
       av_demux (slice_to audio (cut_point audio last_start size))
       = NoAudioStream) ->
   split_webm_buffer av_demux av_open_output av_mux av_close fuel audio
     split_before adjust_timestamps = Raise ValueError) /\
  (split_webm_buffer av_demux av_open_output av_mux av_close fuel audio
     split_before adjust_timestamps = Raise IndexError <->
   exists last_start size audio_stream out,
     find_last_webm_simple_block fuel audio None
     = Ret (PyTuple2 last_start size) /\
     av_demux (slice_to audio (cut_point audio last_start size))
     = AudioStream audio_stream [] /\
     av_open_output audio_stream = Some out).
Proof.
  split; [|split].
  - intros (p & s & Hloc & Hd).
    unfold split_webm_buffer. rewrite Hloc. cbn [bind unpack2].
    fold (cut_point audio p s). rewrite Hd. reflexivity.
  - intros H. apply split_trace in H.
    destruct H as [[_ H] | [(n & _ & H) | (p & s & Hloc & H)]]; try discriminate.
    destruct H as [[_ H] | [[_ H] | (st & packets & Hd & H)]]; try discriminate.
    apply remux_trace in H.
    destruct H as [[_ H] | (o & Hopen & [[Hsel _] | [(_ & [H | [H | H]]) | (ws & raw & _ & _ & H)]])];
      try discriminate.
    + apply select_packets_nil in Hsel. subst packets.
      exists p, s, st, o. auto.
    + exfalso. apply strip_and_stitch_trace in H.
      destruct H as [[_ H] | [(n & _ & H) | (pos & sz & _ & [[_ H] | [_ H]])]];
        discriminate.
  - intros (p & s & st & o & Hloc & Hd & Hopen).
    rewrite (split_after_demux _ _ _ _ _ _ _ _ _ _ _ _ _ _ Hloc Hd).
    unfold remux. rewrite Hopen. reflexivity.
Qed.

Lemma split_value_and_index_errors_witness :
  split_webm_buffer (fun _ : bytes => @NoAudioStream unit)
    fixed_open fixed_mux (fixed_close [xa3; x85; x81; x00; x00; x80; x00]) 1
    [xa3; x85; x81; x12; x34; x80; x00] 3 false = Raise ValueError /\
  split_webm_buffer (fixed_demux [])
    fixed_open fixed_mux (fixed_close [xa3; x85; x81; x00; x00; x80; x00]) 1
    [xa3; x85; x81; x12; x34; x80; x00] 3 false = Raise IndexError.
Proof.
  split.
  - apply (proj1 (split_value_and_index_errors unit unit
                    (fun _ : bytes => @NoAudioStream unit)
                    fixed_open fixed_mux
                    (fixed_close [xa3; x85; x81; x00; x00; x80; x00]) 1
                    [xa3; x85; x81; x12; x34; x80; x00] 3 false)).
    exists 0, 7. split; reflexivity.
  - apply (proj2 (proj2 (split_value_and_index_errors unit unit (fixed_demux [])
                           fixed_open fixed_mux
                           (fixed_close [xa3; x85; x81; x00; x00; x80; x00]) 1
                           [xa3; x85; x81; x12; x34; x80; x00] 3 false))).
    exists 0, 7, tt, tt. repeat split.
Defined.

(** X18.  The split raises AssertionError exactly when every step up to the
    muxing went through and the last block located in the muxed bytes
    reaches past their end. *)
Theorem split_assertion_error (Stream Output : Type)
  (av_demux : bytes -> demuxed Stream)
  (av_open_output : Stream -> option Output)
  (av_mux : Output -> Packet -> option Output)
  (av_close : Output -> option bytes) (fuel : nat)
  (audio : bytes) (split_before : Z) (adjust_timestamps : bool) :
  split_webm_buffer av_demux av_open_output av_mux av_close fuel audio
    split_before adjust_timestamps = Raise AssertionError <->
  exists last_start size audio_stream packets written raw pos size',
    find_last_webm_simple_block fuel audio None
    = Ret (PyTuple2 last_start size) /\
    av_demux (slice_to audio (cut_point audio last_start size))
    = AudioStream audio_stream packets /\
    write_packets adjust_timestamps
      (fst (fst (select_packets packets split_before))) = Ret written /\
    muxed av_open_output av_mux av_close audio_stream written = Some raw /\
    find_last_webm_simple_block fuel raw None = Ret (PyTuple2 pos size') /\
    len raw < pos + size'.
Proof.
  split.
  - intros H. apply split_trace in H.
    destruct H as [[_ H] | [(n & _ & H) | (p & s & Hloc & H)]]; try discriminate.
    destruct H as [[_ H] | [[_ H] | (st & packets & Hd & H)]]; try discriminate.
    apply remux_trace in H.
    destruct H as [[_ H] | (o & _ & [[_ H] | [(_ & [H | [H | H]]) | (ws & raw & Hw & Hm & H)]])];
      try discriminate.
    apply strip_and_stitch_trace in H.
    destruct H as [[_ H] | [(n & _ & H) | (pos & sz & Hraw & [[_ H] | [Hlt _]])]];
      try discriminate.
    exists p, s, st, packets, ws, raw, pos, sz. auto 10.
  - intros (p & s & st & packets & ws & raw & pos & sz
            & Hloc & Hd & Hw & Hm & Hraw & Hlt).
    rewrite (split_after_demux _ _ _ _ _ _ _ _ _ _ _ _ _ _ Hloc Hd).
    rewrite (remux_through _ _ _ _ _ _ _ _ _ _ _ _ Hw Hm).
    unfold strip_and_stitch. rewrite Hraw. cbn [bind unpack2].
    replace (len raw >=? pos + sz) with false
      by (symmetry; rewrite Z.geb_leb; apply Z.leb_gt; exact Hlt).
    reflexivity.
Qed.

(** The muxed bytes end in a block whose size field says 127 bytes. *)
Lemma split_assertion_error_witness :
  split_webm_buffer (fixed_demux [mkPacket 7 true (Some 0) (Some 0)])
    fixed_open fixed_mux (fixed_close [xa3; xff; x81; x00; x00; x80; x00]) 1
    [xa3; x85; x81; x12; x34; x80; x00] 3 false = Raise AssertionError.
Proof.
  apply (proj2 (split_assertion_error unit unit
                  (fixed_demux [mkPacket 7 true (Some 0) (Some 0)])
                  fixed_open fixed_mux
                  (fixed_close [xa3; xff; x81; x00; x00; x80; x00]) 1
                  [xa3; x85; x81; x12; x34; x80; x00] 3 false)).
  exists 0, 7, tt, [mkPacket 7 true (Some 0) (Some 0)],
    [mkPacket 7 true (Some 0) (Some 0)],
    [xa3; xff; x81; x00; x00; x80; x00], 0, 129.
  repeat split.
Defined.
